(** * BigQuery to Clickhouse replication asset

    A shallow embedding of [warehouse/oso_dagster/factories/bq2clickhouse.py]:
    the column type table [COLUMN_MAP], the schema translation
    [get_bq_table_columns], the derivation of the temporary table name and the
    body of [bq2clickhouse_asset], whose calls to the BigQuery, GCS and
    Clickhouse helpers are threaded through an explicit world and logged. *)

From Stdlib Require Import String Ascii List Arith Lia ZArith.
From stdpp Require Import base option list gmap strings.

Import ListNotations.
Local Open Scope string_scope.
Local Open Scope list_scope.
Local Open Scope nat_scope.

(** ** Python string operations used by the source

    A Python [str] is read as a [string], one character per element, so
    that [len] is [String.length]. *)

Module PyStr.

(** The double quote character, which the error message of
    [get_bq_table_columns] puts around the field name and type. *)
Definition dquote : string := String (ascii_of_nat 34) EmptyString.

(** [s.replace(old, new)] for one-character [old] and [new]. *)
Fixpoint replace (old new : ascii) (s : string) : string :=
  match s with
  | EmptyString => EmptyString
  | String c s' =>
      String (if Ascii.eqb c old then new else c) (replace old new s')
  end.

(** [s[0:n]]: the first [n] characters, or all of [s] when it is shorter. *)
Fixpoint slice_to (n : nat) (s : string) : string :=
  match n, s with
  | O, _ => EmptyString
  | S _, EmptyString => EmptyString
  | S n', String c s' => String c (slice_to n' s')
  end.

(** [s.rstrip(c)] for a one-character argument: drop every trailing [c]. *)
Fixpoint rstrip (c : ascii) (s : string) : string :=
  match s with
  | EmptyString => EmptyString
  | String a s' =>
      match rstrip c s' with
      | EmptyString => if Ascii.eqb a c then EmptyString else String a EmptyString
      | String b r => String a (String b r)
      end
  end.

(** [s.endswith(c)] for a one-character argument. *)
Fixpoint ends_with (c : ascii) (s : string) : bool :=
  match s with
  | EmptyString => false
  | String a EmptyString => Ascii.eqb a c
  | String _ s' => ends_with c s'
  end.

(** Truth value of a string: only the empty string is falsy. *)
Definition truthy (s : string) : bool :=
  match s with
  | EmptyString => false
  | String _ _ => true
  end.

End PyStr.

(** ** Data model *)

(** One entry of [table.schema]: the two attributes the source reads. *)
Record SchemaField := mkField {
  name : string;
  field_type : string
}.

(** [BigQueryTableConfig], as far as the source reads it. *)
Record BigQueryTableConfig := mkBQ {
  project_id : string;
  dataset_name : string;
  table_name : string
}.

Inductive SourceMode := INCREMENTAL | OVERWRITE.

(** [Optional[Dict[str, List[str]]]]: index name to ordered column list. *)
Definition Index : Type := option (list (string * list string)).

(** The columns handed to Clickhouse: [(name, type)] pairs in order. *)
Definition Columns : Type := list (string * string).

(** [key_prefix] and [asset_kwargs] only feed the [@asset] decorator and are
    left out. *)
Record Bq2ClickhouseAssetConfig := mkConfig {
  asset_name : string;
  sync_id : string;
  source_config : BigQueryTableConfig;
  staging_bucket : string;
  destination_table_name : string;
  index : Index;
  copy_mode : SourceMode
}.

(** The metadata of the [MaterializeResult] the asset returns. *)
Record MaterializeResult := mkResult {
  success : bool;
  asset : string;
  gcs_glob : string;
  clickhouse_temp_table : string
}.

Definition GCS_BUCKET_DIRECTORY : string := "bq2clickhouse".

(** Map BigQuery column types to Clickhouse. *)
Definition COLUMN_MAP : gmap string string :=
  list_to_map
    [ ("STRING", "String");
      ("FLOAT", "Float32");
      ("FLOAT64", "Float64");
      ("INTEGER", "Int64");
      ("INT64", "Int64");
      ("TIMESTAMP", "DateTime");
      ("DATETIME", "DateTime");
      ("DATE", "Date");
      ("BYTES", "String");
      ("BOOL", "Boolean");
      ("BOOLEAN", "Boolean");
      ("NUMERIC", "Decimal");
      ("DECIMAL", "Decimal");
      ("BIGNUMERIC", "Decimal256");
      ("BIGDECIMAL", "Decimal256");
      ("TIME", "DateTime");
      ("JSON", "JSON") ].

(** ** Calls that leave the module

    Every helper the asset imports from [dagster_gcp] and from [..utils] is a
    call into another system.  A call either returns a value or raises.
    Taking a client ([get_client]) is a call of its own; leaving a [with]
    block hands the client back and lets an exception pass.  Logging through
    [context.log] has no effect the asset can observe and is left out. *)

Inductive Call :=
| BigQueryGetClient
| ExportToGcs (bq_table_config : BigQueryTableConfig) (gcs_path : string)
| GetTable (dataset_id table_id : string)
| ClickhouseGetClient
| CreateTable (table : string) (columns : Columns) (idx : Index)
    (if_not_exists : bool)
| ImportData (table source_url : string)
| DropTable (table : string)
| RenameTable (from_name to_name : string)
| GcsGetClient
| BatchDeleteFolder (bucket_name folder : string).

(** What a call returns when it does not raise. *)
Definition Resp (c : Call) : Type :=
  match c with
  | ExportToGcs _ _ => string
  | GetTable _ _ => list SchemaField
  | _ => unit
  end.

(** Calls on the Clickhouse client. *)
Definition is_clickhouse_call (c : Call) : bool :=
  match c with
  | CreateTable _ _ _ _ | ImportData _ _ | DropTable _ | RenameTable _ _ => true
  | _ => false
  end.

Definition is_batch_delete (c : Call) : bool :=
  match c with BatchDeleteFolder _ _ => true | _ => false end.

Definition is_swap_call (c : Call) : bool :=
  match c with DropTable _ | RenameTable _ _ => true | _ => false end.

(** ** Exceptions *)

Inductive Exception :=
| UnsupportedTableColumn (message : string)
| CallRaised (c : Call).

(** ['Field "%s" has unsupported type "%s"' % (f.name, field_type)] *)
Definition unsupported_message (f : SchemaField) : string :=
  "Field " +:+ PyStr.dquote +:+ name f +:+ PyStr.dquote
  +:+ " has unsupported type "
  +:+ PyStr.dquote +:+ field_type f +:+ PyStr.dquote.

(** The [for f in table.schema] loop of [get_bq_table_columns], with
    [columns] as accumulator. *)
Fixpoint translate_fields (schema : list SchemaField) (columns : Columns)
  : Exception + Columns :=
  match schema with
  | [] => inr columns
  | f :: rest =>
      if bool_decide (field_type f ∈ ["RECORD"; "STRUCT"]) then
        inl (UnsupportedTableColumn (unsupported_message f))
      else
        match COLUMN_MAP !! field_type f with
        | Some column_type =>
            if PyStr.truthy column_type then
              translate_fields rest (columns ++ [(name f, column_type)])
            else inl (UnsupportedTableColumn (unsupported_message f))
        | None => inl (UnsupportedTableColumn (unsupported_message f))
        end
  end.

(** ** Names derived from the configuration *)

(** ["%s/%s/%s" % (GCS_BUCKET_DIRECTORY, sync_id, destination_table_name)] *)
Definition gcs_relative_dir (asset_config : Bq2ClickhouseAssetConfig) : string :=
  GCS_BUCKET_DIRECTORY +:+ "/" +:+ sync_id asset_config
  +:+ "/" +:+ destination_table_name asset_config.

(** ["gs://%s/%s" % (gcs_bucket, gcs_relative_dir)] *)
Definition gcs_path (asset_config : Bq2ClickhouseAssetConfig) : string :=
  "gs://" +:+ staging_bucket asset_config +:+ "/" +:+ gcs_relative_dir asset_config.

(** The name before truncation:
    ["%s_%s" % (destination_table_name, sync_id.replace("-", "_"))]. *)
Definition temp_dest_full (destination_table_name sync_id : string) : string :=
  destination_table_name +:+ "_" +:+ PyStr.replace "-" "_" sync_id.

(** The temporary table name, cut to 63 characters and stripped of trailing
    underscores when the full name is longer than that. *)
Definition temp_dest (destination_table_name sync_id : string) : string :=
  let temp_dest := temp_dest_full destination_table_name sync_id in
  if (63 <? String.length temp_dest)%nat then
    PyStr.rstrip "_" (PyStr.slice_to 63 temp_dest)
  else temp_dest.

(** ** The world and the monad of the asset body

    The state carries the outside world and a log of the calls made so far,
    each with whether it returned ([true]) or raised ([false]).  An exception
    ends the computation and keeps the state reached. *)

Record State (W : Type) := mkState {
  world : W;
  trace : list (Call * bool)
}.
Arguments mkState {W} _ _.
Arguments world {W} _.
Arguments trace {W} _.

Definition M (W A : Type) : Type := State W → (Exception + A) * State W.

#[global] Instance M_ret {W} : MRet (M W) := λ A a s, (inr a, s).

#[global] Instance M_bind {W} : MBind (M W) := λ A B f m s,
  match m s with
  | (inl e, s') => (inl e, s')
  | (inr a, s') => f a s'
  end.

Definition raise {W A} (e : Exception) : M W A := λ s, (inl e, s).

(** How the outside world answers: [None] when the call raises. *)
Definition Handler (W : Type) : Type := W → ∀ c : Call, option (Resp c) * W.

Definition call {W} (handler : Handler W) (c : Call) : M W (Resp c) := λ s,
  match handler (world s) c with
  | (Some r, w') => (inr r, mkState w' (trace s ++ [(c, true)]))
  | (None, w') => (inl (CallRaised c), mkState w' (trace s ++ [(c, false)]))
  end.

Definition calls_of (t : list (Call * bool)) : list Call := t.*1.

Section Asset.

Context {W : Type}.
Variable handler : Handler W.
(** [gcs_to_http_url] of [..utils.gcs], a conversion of the glob that
    touches nothing outside. *)
Variable gcs_to_http_url : string → string.

(** Get the columns of a BigQuery table as Clickhouse types. *)
Definition get_bq_table_columns (bq_table_config : BigQueryTableConfig)
  : M W Columns :=
  schema ← call handler (GetTable (dataset_name bq_table_config)
                                  (table_name bq_table_config));
  match translate_fields schema [] with
  | inl e => raise e
  | inr columns => mret columns
  end.

Definition bq2clickhouse_asset (asset_config : Bq2ClickhouseAssetConfig)
  : M W MaterializeResult :=
  let bq_source := source_config asset_config in
  let gcs_bucket := staging_bucket asset_config in
  (* Export BigQuery table to GCS *)
  _ ← call handler BigQueryGetClient;
  gcs_glob ← call handler (ExportToGcs bq_source (gcs_path asset_config));
  columns ← get_bq_table_columns bq_source;
  (* Create the Clickhouse tables and import the data *)
  let destination_table_name := destination_table_name asset_config in
  let index := index asset_config in
  let source_url := gcs_to_http_url gcs_glob in
  _ ← call handler ClickhouseGetClient;
  let temp_dest := temp_dest destination_table_name (sync_id asset_config) in
  _ ← call handler (CreateTable destination_table_name columns index true);
  _ ← call handler (CreateTable temp_dest columns index false);
  _ ← call handler (ImportData temp_dest source_url);
  _ ← call handler (DropTable destination_table_name);
  _ ← call handler (RenameTable temp_dest destination_table_name);
  (* Delete the gcs files *)
  _ ← call handler GcsGetClient;
  _ ← call handler (BatchDeleteFolder gcs_bucket (gcs_relative_dir asset_config));
  mret {| success := true;
          asset := asset_name asset_config;
          gcs_glob := gcs_glob;
          clickhouse_temp_table := temp_dest |}.

(** One materialisation, started in world [w] with an empty log. *)
Definition materialize (asset_config : Bq2ClickhouseAssetConfig) (w : W)
  : (Exception + MaterializeResult) * State W :=
  bq2clickhouse_asset asset_config (mkState w []).

(** The calls of a run in which nothing raises, for the glob and columns
    the BigQuery side returned. *)
Definition call_plan (asset_config : Bq2ClickhouseAssetConfig)
    (glob : string) (columns : Columns) : list Call :=
  let dest := destination_table_name asset_config in
  let temp := temp_dest dest (sync_id asset_config) in
  [ BigQueryGetClient;
    ExportToGcs (source_config asset_config) (gcs_path asset_config);
    GetTable (dataset_name (source_config asset_config))
             (table_name (source_config asset_config));
    ClickhouseGetClient;
    CreateTable dest columns (index asset_config) true;
    CreateTable temp columns (index asset_config) false;
    ImportData temp (gcs_to_http_url glob);
    DropTable dest;
    RenameTable temp dest;
    GcsGetClient;
    BatchDeleteFolder (staging_bucket asset_config) (gcs_relative_dir asset_config) ].

End Asset.

(** The world a log of calls leads to: the handler applied to each in turn. *)
Fixpoint replay {W} (handler : Handler W) (w : W) (cs : list Call) : W :=
  match cs with
  | [] => w
  | c :: cs' => replay handler (handler w c).2 cs'
  end.

(** ** A reference world

    The helper modules [..utils.bq], [..utils.gcs] and [..utils.clickhouse]
    are outside the asset's file.  The claims that speak of what exists in
    the bucket or in Clickhouse after a run are read against this world. *)

Module SpecWorld.

Record Table := mkTable {
  tbl_columns : Columns;
  tbl_index : Index;
  tbl_loaded : option string
}.

Record World := mkWorld {
  source_schema : list SchemaField;
  shards : list string;
  objects : gset string;
  tables : gmap string Table;
  raises : Call → bool
}.

Definition set_objects (w : World) (o : gset string) : World :=
  mkWorld (source_schema w) (shards w) o (tables w) (raises w).

Definition set_tables (w : World) (t : gmap string Table) : World :=
  mkWorld (source_schema w) (shards w) (objects w) t (raises w).

(** The prefix under which the objects of a folder of a bucket live. *)
Definition folder_prefix (bucket folder : string) : string :=
  "gs://" +:+ bucket +:+ "/" +:+ folder.

Definition under (prefix o : string) : bool := String.prefix prefix o.

(** Objects a world holds under a prefix. *)
Definition objects_under (prefix : string) (w : World) : gset string :=
  filter (λ o, under prefix o = true) (objects w).

(** Modelled from the spec: the helpers [export_to_gcs], [batch_delete_folder],
    [create_table], [import_data], [drop_table] and [rename_table] are not in
    the asset's file.  Section 4.2: the export writes its shard files under
    the path it is given, touches nothing else and returns a glob for them.
    Section 4.5: the cleaner deletes every object under the folder.
    Section 6: [createTable(name, columns, indexes, ifNotExists)],
    [bulkLoad(tableName, sourceURL)], [dropTable(name)] and
    [renameTable(oldName, newName)]; creating a table that exists raises
    unless [ifNotExists] is set, and loading, dropping or renaming a table
    that does not exist raises.  A call the world's [raises] marks raises
    and changes nothing.  The shard names are the world's [shards], and the
    glob is spelled [path/*.parquet]. *)
Definition handler : Handler World := λ w c,
  if raises w c then (None, w) else
  match c return option (Resp c) * World with
  | BigQueryGetClient => (Some (), w)
  | ClickhouseGetClient => (Some (), w)
  | GcsGetClient => (Some (), w)
  | ExportToGcs _ path =>
      (Some (path +:+ "/*.parquet"),
       set_objects w
         (objects w ∪ list_to_set ((λ sh, path +:+ "/" +:+ sh) <$> shards w)))
  | GetTable _ _ => (Some (source_schema w), w)
  | CreateTable t columns idx if_not_exists =>
      match tables w !! t with
      | Some _ => if if_not_exists then (Some (), w) else (None, w)
      | None => (Some (), set_tables w (<[t := mkTable columns idx None]> (tables w)))
      end
  | ImportData t source_url =>
      match tables w !! t with
      | Some tb =>
          (Some (),
           set_tables w
             (<[t := mkTable (tbl_columns tb) (tbl_index tb) (Some source_url)]>
                (tables w)))
      | None => (None, w)
      end
  | DropTable t =>
      match tables w !! t with
      | Some _ => (Some (), set_tables w (delete t (tables w)))
      | None => (None, w)
      end
  | RenameTable from_name to_name =>
      match tables w !! from_name, tables w !! to_name with
      | Some tb, None =>
          (Some (), set_tables w (<[to_name := tb]> (delete from_name (tables w))))
      | _, _ => (None, w)
      end
  | BatchDeleteFolder bucket folder =>
      (Some (),
       set_objects w
         (filter (λ o, under (folder_prefix bucket folder) o = false) (objects w)))
  end.

(** Modelled from the spec: [gcs_to_http_url] is not in the asset's file.
    Section 6: a load-accessible URL derived from an exported glob. *)
Definition gcs_to_http_url (glob : string) : string :=
  "https://storage.googleapis.com/"
  +:+ String.substring 5 (String.length glob - 5) glob.

Definition run (asset_config : Bq2ClickhouseAssetConfig) (w : World)
  : (Exception + MaterializeResult) * State World :=
  materialize handler gcs_to_http_url asset_config w.

(** Scenario A of the spec: two flat columns, no destination table yet. *)
Definition scenario_config : Bq2ClickhouseAssetConfig :=
  {| asset_name := "events";
     sync_id := "run-1";
     source_config := mkBQ "proj" "ds" "events";
     staging_bucket := "bkt";
     destination_table_name := "events";
     index := None;
     copy_mode := OVERWRITE |}.

Definition scenario_world (schema : list SchemaField) (raises : Call → bool)
  : World :=
  mkWorld schema ["000000000000.parquet"] ∅ ∅ raises.

Definition flat_schema : list SchemaField :=
  [mkField "id" "INT64"; mkField "name" "STRING"].

Definition nested_schema : list SchemaField :=
  [mkField "id" "INT64"; mkField "tags" "RECORD"].

Definition never : Call → bool := λ _, false.

Definition import_raises : Call → bool :=
  λ c, match c with ImportData _ _ => true | _ => false end.

Definition rename_raises : Call → bool :=
  λ c, match c with RenameTable _ _ => true | _ => false end.

Definition cleanup_raises : Call → bool :=
  λ c, match c with BatchDeleteFolder _ _ => true | _ => false end.

(** A world in which the temporary name of the scenario is already taken. *)
Definition collision_world : World :=
  mkWorld flat_schema ["000000000000.parquet"] ∅
    {[ "events_run_1" := mkTable [("id", "Int64")] None None ]} never.

End SpecWorld.

(** ** Vocabulary of the statements *)

(** A column the translation accepts, and one it rejects. *)
Definition supported (f : SchemaField) : Prop :=
  is_Some (COLUMN_MAP !! field_type f).

Definition unsupported (f : SchemaField) : Prop :=
  field_type f = "RECORD" ∨ field_type f = "STRUCT"
  ∨ COLUMN_MAP !! field_type f = None.

(** The type table as the specification lists it. *)
Definition spec_type_table : list (string * string) :=
  [ ("STRING", "String");
    ("FLOAT", "Float32");
    ("FLOAT64", "Float64");
    ("INTEGER", "Int64"); ("INT64", "Int64");
    ("TIMESTAMP", "DateTime"); ("DATETIME", "DateTime"); ("TIME", "DateTime");
    ("DATE", "Date");
    ("BYTES", "String");
    ("BOOL", "Boolean"); ("BOOLEAN", "Boolean");
    ("NUMERIC", "Decimal"); ("DECIMAL", "Decimal");
    ("BIGNUMERIC", "Decimal256"); ("BIGDECIMAL", "Decimal256");
    ("JSON", "JSON") ].

(** A log in which every call returned. *)
Definition returned (cs : list Call) : list (Call * bool) :=
  (λ c, (c, true)) <$> cs.

(** Whether an answer of the handler is a return. *)
Definition is_return {A} (r : option A) : bool :=
  match r with Some _ => true | None => false end.

(** A log agrees with the handler when each entry records what the handler
    answered in the world the earlier entries led to. *)
Fixpoint agrees {W} (handler : Handler W) (w : W) (t : list (Call * bool)) : Prop :=
  match t with
  | [] => True
  | (c, b) :: t' =>
      is_return (handler w c).1 = b ∧ agrees handler (handler w c).2 t'
  end.

Section Answers.

Context {W : Type}.
Variable handler : Handler W.
Variable gcs_to_http_url : string → string.
Variable asset_config : Bq2ClickhouseAssetConfig.
Variable w : W.

(** The glob the export answers with in a run from [w] (empty when the
    export raises). *)
Definition answered_glob : string :=
  default ""
    (handler (replay handler w [BigQueryGetClient])
       (ExportToGcs (source_config asset_config) (gcs_path asset_config))).1.

(** The schema the table lookup answers with in a run from [w]. *)
Definition answered_schema : list SchemaField :=
  default []
    (handler
       (replay handler w
          [BigQueryGetClient;
           ExportToGcs (source_config asset_config) (gcs_path asset_config)])
       (GetTable (dataset_name (source_config asset_config))
                 (table_name (source_config asset_config)))).1.

Definition answered_columns : Columns :=
  match translate_fields answered_schema [] with
  | inr columns => columns
  | inl _ => []
  end.

(** The calls of the run from [w], were none of them to raise. *)
Definition run_plan : list Call :=
  call_plan gcs_to_http_url asset_config answered_glob answered_columns.

End Answers.

(** ** POSIX path functions of [os.path] used by [utils/dbt.py] *)

Module PosixPath.

(** [s.startswith("/")] *)
Definition starts_with_sep (s : string) : bool :=
  match s with
  | String c _ => Ascii.eqb c "/"
  | EmptyString => false
  end.

(** One round of the loop of [posixpath.join]: a component that starts with
    a slash replaces the path; otherwise it is appended, after a slash
    unless the path is empty or ends in one. *)
Definition join_step (path b : string) : string :=
  if starts_with_sep b then b
  else if negb (PyStr.truthy path) || PyStr.ends_with "/" path then path +:+ b
  else path +:+ "/" +:+ b.

(** [os.path.join(a, *p)] *)
Definition join (a : string) (p : list string) : string :=
  foldl join_step a p.

(** [p[:p.rfind("/") + 1]]: the part of [p] up to and including its last
    slash, empty when [p] has none. *)
Fixpoint head_of (p : string) : string :=
  match p with
  | EmptyString => EmptyString
  | String c p' =>
      match head_of p' with
      | EmptyString => if Ascii.eqb c "/" then String c EmptyString else EmptyString
      | String d h => String c (String d h)
      end
  end.

(** [os.path.dirname(p)]: the head, without its trailing slashes unless it
    consists of slashes only. *)
Definition dirname (p : string) : string :=
  let head := head_of p in
  if PyStr.truthy head && PyStr.truthy (PyStr.rstrip "/" head)
  then PyStr.rstrip "/" head
  else head.

End PosixPath.

(** ** dbt profiles and manifests: [utils/dbt.py] *)

Module Dbt.

(** A value of a profile target: the dataclass fields are [int] or [str]. *)
Inductive Value :=
| VInt (n : Z)
| VStr (s : string).

Record BQTargetConfigTemplate := mkTemplate {
  job_execution_time_seconds : Z;
  job_retries : Z;
  location : string;
  method : string;
  keyfile : string;
  impersonate_service_account : string;
  threads : Z
}.

(** The field defaults of the dataclass. *)
Definition default_template : BQTargetConfigTemplate :=
  {| job_execution_time_seconds := 3600;
     job_retries := 3;
     location := "US";
     method := "oauth";
     keyfile := "";
     impersonate_service_account := "";
     threads := 32 |}.

(** [dataclasses.asdict(self)] *)
Definition asdict (self : BQTargetConfigTemplate) : gmap string Value :=
  list_to_map
    [ ("job_execution_time_seconds", VInt (job_execution_time_seconds self));
      ("job_retries", VInt (job_retries self));
      ("location", VStr (location self));
      ("method", VStr (method self));
      ("keyfile", VStr (keyfile self));
      ("impersonate_service_account", VStr (impersonate_service_account self));
      ("threads", VInt (threads self)) ].

Definition as_dict (self : BQTargetConfigTemplate) : gmap string Value :=
  let output := asdict self in
  let output := <["type" := VStr "bigquery"]> output in
  if String.eqb (method self) "oauth" then
    let output := delete "keyfile" output in
    if String.eqb (impersonate_service_account self) "" then
      delete "impersonate_service_account" output
    else output
  else
    delete "impersonate_service_account" output.

(** The [for] loop of [generate_dbt_profile], with [targets_dict] as
    accumulator. *)
Definition add_target (project_id : string) (template : BQTargetConfigTemplate)
    (targets_dict : gmap string (gmap string Value)) (target : string * string)
  : gmap string (gmap string Value) :=
  let '(target_name, dataset_name) := target in
  let target_dict := as_dict template in
  let target_dict := <["project" := VStr project_id]> target_dict in
  let target_dict := <["dataset" := VStr dataset_name]> target_dict in
  <[target_name := target_dict]> targets_dict.

Definition targets_dict (project_id : string) (targets : list (string * string))
    (template : BQTargetConfigTemplate) : gmap string (gmap string Value) :=
  foldl (add_target project_id template) ∅ targets.

(** [{profile_name: {"outputs": targets_dict}}] *)
Definition yaml_dict (project_id profile_name : string)
    (targets : list (string * string)) (template : BQTargetConfigTemplate)
  : gmap string (gmap string (gmap string (gmap string Value))) :=
  {[ profile_name := {[ "outputs" := targets_dict project_id targets template ]} ]}.

Section Profiles.

(** [yaml.dump], [os.environ] and [os.path.expanduser] come from outside. *)
Variable yaml_dump :
  gmap string (gmap string (gmap string (gmap string Value))) → string.
Variable environ : gmap string string.
Variable expanduser : string → string.

Definition generate_dbt_profile (project_id profile_name : string)
    (targets : list (string * string)) (template : BQTargetConfigTemplate)
  : string :=
  yaml_dump (yaml_dict project_id profile_name targets template).

Definition get_profiles_dir : string :=
  default (expanduser "~/.dbt") (environ !! "DBT_PROFILES_DIR").

Definition default_profiles_path : string :=
  PosixPath.join get_profiles_dir ["profiles.yml"].

End Profiles.

(** Calls to the file system and to the dbt command line.  [Mkdir] is
    [Path(path).mkdir(parents=True, exist_ok=True)]; [WriteFile] is opening
    the file for writing and writing the content; [DbtParse] is
    [DbtCliResource(project_dir, target).cli(["--quiet", "parse"],
    target_path=Path(base, target)).wait()], answered with the target path
    of the finished invocation.  The [print] of the profile path is left
    out. *)
Inductive Call :=
| IsFile (path : string)
| Mkdir (path : string)
| WriteFile (path content : string)
| DbtParse (project_dir target : string) (target_path : string * string).

Definition Resp (c : Call) : Type :=
  match c with
  | IsFile _ => bool
  | DbtParse _ _ _ => string
  | _ => unit
  end.

Inductive Exception :=
| CallRaised (c : Call).

(** A manifest location: a joined string, or the target path of a dbt
    invocation with [joinpath("manifest.json")] applied. *)
Inductive ManifestPath :=
| PathStr (path : string)
| PathJoin (target_path name : string).

Record Run (W : Type) := mkRun {
  files : W;
  log : list (Call * bool)
}.
Arguments mkRun {W} _ _.
Arguments files {W} _.
Arguments log {W} _.

Definition M (W A : Type) : Type := Run W → (Exception + A) * Run W.

#[global] Instance M_ret {W} : MRet (M W) := λ A a s, (inr a, s).

#[global] Instance M_bind {W} : MBind (M W) := λ A B f m s,
  match m s with
  | (inl e, s') => (inl e, s')
  | (inr a, s') => f a s'
  end.

Definition Handler (W : Type) : Type := W → ∀ c : Call, option (Resp c) * W.

Definition call {W} (handler : Handler W) (c : Call) : M W (Resp c) := λ s,
  match handler (files s) c with
  | (Some r, w') => (inr r, mkRun w' (log s ++ [(c, true)]))
  | (None, w') => (inl (CallRaised c), mkRun w' (log s ++ [(c, false)]))
  end.

Section Effects.

Context {W : Type}.
Variable handler : Handler W.
Variable yaml_dump :
  gmap string (gmap string (gmap string (gmap string Value))) → string.
Variable environ : gmap string string.
Variable expanduser : string → string.

Definition write_dbt_profile (project_id profile_name : string)
    (targets : list (string * string)) (template : BQTargetConfigTemplate)
    (profile_path : string) : M W unit :=
  let profile_path :=
    if negb (PyStr.truthy profile_path)
    then default_profiles_path environ expanduser
    else profile_path in
  _ ← call handler (Mkdir (PosixPath.dirname profile_path));
  let generated_profiles_yml :=
    generate_dbt_profile yaml_dump project_id profile_name targets template in
  call handler (WriteFile profile_path generated_profiles_yml).

(** The loop of the [parse_projects] branch, with [manifests] as
    accumulator. *)
Fixpoint parse_manifests (dbt_target_base_dir dbt_project_dir : string)
    (targets : list (string * string)) (manifests : gmap string ManifestPath)
  : M W (gmap string ManifestPath) :=
  match targets with
  | [] => mret manifests
  | (target, _) :: rest =>
      _ ← call handler (Mkdir dbt_target_base_dir);
      target_path ← call handler
        (DbtParse dbt_project_dir target (dbt_target_base_dir, target));
      parse_manifests dbt_target_base_dir dbt_project_dir rest
        (<[target := PathJoin target_path "manifest.json"]> manifests)
  end.

(** The loop of the other branch. *)
Definition join_manifests (dbt_target_base_dir : string)
    (targets : list (string * string)) : gmap string ManifestPath :=
  foldl (λ manifests '(target, _),
           <[target := PathStr (PosixPath.join dbt_target_base_dir
                                  [target; "manifest.json"])]> manifests)
    ∅ targets.

Definition load_dbt_manifests (dbt_target_base_dir dbt_project_dir : string)
    (project_id profile_name : string) (targets : list (string * string))
    (template : BQTargetConfigTemplate) (parse_projects force_auth : bool)
  : M W (gmap string ManifestPath) :=
  is_file ← call handler (IsFile (default_profiles_path environ expanduser));
  _ ← (if negb is_file || force_auth then
         write_dbt_profile project_id profile_name targets template ""
       else mret ());
  if parse_projects then
    parse_manifests dbt_target_base_dir dbt_project_dir targets ∅
  else
    mret (join_manifests dbt_target_base_dir targets).

End Effects.

(** The dataset the loop of [generate_dbt_profile] leaves for a target
    name: that of the last pair with this name. *)
Fixpoint dataset_of (target_name : string) (targets : list (string * string))
  : option string :=
  match targets with
  | [] => None
  | (n, d) :: rest =>
      match dataset_of target_name rest with
      | Some d' => Some d'
      | None => if decide (n = target_name) then Some d else None
      end
  end.

(** The target a profile gets for a dataset. *)
Definition target_for (project_id : string) (template : BQTargetConfigTemplate)
    (dataset_name : string) : gmap string Value :=
  <["dataset" := VStr dataset_name]>
    (<["project" := VStr project_id]> (as_dict template)).

(** The calls the [parse_projects] loop makes when none raises. *)
Definition parse_calls (dbt_target_base_dir dbt_project_dir : string)
    (targets : list (string * string)) : list Call :=
  targets ≫= λ '(target, _),
    [ Mkdir dbt_target_base_dir;
      DbtParse dbt_project_dir target (dbt_target_base_dir, target) ].

(** A file system that keeps the list of paths written, in which no call
    raises; a dbt invocation answers with the path made of its two parts. *)
Definition plain_files : Handler (list string) := λ w c,
  match c return option (Resp c) * list string with
  | IsFile path => (Some (existsb (String.eqb path) w), w)
  | Mkdir path => (Some (), w)
  | WriteFile path _ => (Some (), path :: w)
  | DbtParse _ _ (base, target) => (Some (PosixPath.join base [target]), w)
  end.

End Dbt.

(** ** More vocabulary for the asset *)

(** [c in s] for a one-character [c]. *)
Fixpoint contains_char (c : ascii) (s : string) : bool :=
  match s with
  | EmptyString => false
  | String a s' => Ascii.eqb a c || contains_char c s'
  end.

(** [c * n] *)
Fixpoint repeat_char (c : ascii) (n : nat) : string :=
  match n with
  | O => EmptyString
  | S n' => String c (repeat_char c n')
  end.

(** A string of dashes and underscores only. *)
Fixpoint only_separators (s : string) : bool :=
  match s with
  | EmptyString => true
  | String a s' => (Ascii.eqb a "-" || Ascii.eqb a "_") && only_separators s'
  end.

(** What a call of a run may name: the source table, the job's staging
    path and folder, the destination table and its temporary table. *)
Definition within_job (asset_config : Bq2ClickhouseAssetConfig) (c : Call) : Prop :=
  let dest := destination_table_name asset_config in
  let temp := temp_dest dest (sync_id asset_config) in
  match c with
  | ExportToGcs source path =>
      source = source_config asset_config ∧ path = gcs_path asset_config
  | GetTable dataset table =>
      dataset = dataset_name (source_config asset_config)
      ∧ table = table_name (source_config asset_config)
  | CreateTable t _ _ _ | ImportData t _ => t = dest ∨ t = temp
  | DropTable t => t = dest
  | RenameTable from_name to_name => from_name = temp ∧ to_name = dest
  | BatchDeleteFolder bucket folder =>
      bucket = staging_bucket asset_config
      ∧ folder = gcs_relative_dir asset_config
      ∧ SpecWorld.folder_prefix bucket folder = gcs_path asset_config
  | _ => True
  end.

(** * Properties *)

(** ** String operations *)

Lemma length_slice_to n s : String.length (PyStr.slice_to n s) = n `min` String.length s.
Proof.
  revert s. induction n as [|n IH]; intros [|c s]; simpl; auto.
Qed.

Lemma length_rstrip c s :
  (String.length (PyStr.rstrip c s) ≤ String.length s)%nat.
Proof.
  induction s as [|a s IH]; simpl; [lia|].
  destruct (PyStr.rstrip c s) as [|b r]; simpl in *.
  - destruct (Ascii.eqb a c); simpl; lia.
  - lia.
Qed.

Lemma ends_with_rstrip c s : PyStr.ends_with c (PyStr.rstrip c s) = false.
Proof.
  induction s as [|a s IH]; simpl; [done|].
  destruct (PyStr.rstrip c s) as [|b r] eqn:E.
  - destruct (Ascii.eqb a c) eqn:Eac; simpl; [done|]. exact Eac.
  - exact IH.
Qed.

Lemma append_inj_r (p a b : string) : p +:+ a = p +:+ b → a = b.
Proof.
  induction p as [|c p IH]; simpl; [done|].
  intros H. injection H as H. auto.
Qed.

(** ** The type table *)

Lemma COLUMN_MAP_table k v :
  COLUMN_MAP !! k = Some v ↔ (k, v) ∈ spec_type_table.
Proof.
  unfold COLUMN_MAP. rewrite <- elem_of_list_to_map.
  - unfold spec_type_table. rewrite !elem_of_cons, !elem_of_nil. tauto.
  - apply (bool_decide_unpack _). vm_compute. reflexivity.
Qed.

Lemma COLUMN_MAP_truthy k v : COLUMN_MAP !! k = Some v → PyStr.truthy v = true.
Proof.
  rewrite COLUMN_MAP_table. unfold spec_type_table.
  rewrite !elem_of_cons, !elem_of_nil.
  intros H. repeat (destruct H as [H|H]; [by inversion H|]). done.
Qed.

Lemma COLUMN_MAP_no_composite k :
  k ∈ ["RECORD"; "STRUCT"] → COLUMN_MAP !! k = None.
Proof.
  rewrite !elem_of_cons, elem_of_nil.
  intros [->|[->|[]]]; vm_compute; reflexivity.
Qed.

(** ** The translation loop *)

Lemma translate_fields_unsupported f rest columns :
  unsupported f →
  translate_fields (f :: rest) columns
  = inl (UnsupportedTableColumn (unsupported_message f)).
Proof.
  intros Hf. cbn [translate_fields]. case_bool_decide as Hin; [done|].
  destruct Hf as [Hf|[Hf|Hf]].
  - exfalso. apply Hin. rewrite Hf. set_solver.
  - exfalso. apply Hin. rewrite Hf. set_solver.
  - by rewrite Hf.
Qed.

Lemma translate_fields_supported f rest columns column_type :
  COLUMN_MAP !! field_type f = Some column_type →
  translate_fields (f :: rest) columns
  = translate_fields rest (columns ++ [(name f, column_type)]).
Proof.
  intros Hf. cbn [translate_fields]. case_bool_decide as Hin.
  - apply COLUMN_MAP_no_composite in Hin. congruence.
  - rewrite Hf. by rewrite (COLUMN_MAP_truthy _ _ Hf).
Qed.

Lemma translate_fields_first_unsupported pre f post columns :
  Forall supported pre → unsupported f →
  translate_fields (pre ++ f :: post) columns
  = inl (UnsupportedTableColumn (unsupported_message f)).
Proof.
  intros Hpre Hf. revert columns.
  induction Hpre as [|g pre [ct Hg] _ IH]; intros columns; simpl app.
  - by apply translate_fields_unsupported.
  - rewrite (translate_fields_supported _ _ _ _ Hg). apply IH.
Qed.

Lemma translate_fields_all_supported schema columns :
  Forall supported schema →
  ∃ new, translate_fields schema columns = inr (columns ++ new)
         ∧ new.*1 = name <$> schema
         ∧ Forall2 (λ f c, COLUMN_MAP !! field_type f = Some c.2) schema new.
Proof.
  intros Hs. revert columns.
  induction Hs as [|f schema [ct Hf] _ IH]; intros columns.
  - exists []. simpl. rewrite app_nil_r. auto.
  - destruct (IH (columns ++ [(name f, ct)])) as (new & Hrun & Hnames & Htypes).
    exists ((name f, ct) :: new).
    rewrite (translate_fields_supported _ _ _ _ Hf), Hrun, <- app_assoc.
    split; [done|]. split.
    + rewrite !fmap_cons. simpl. by f_equal.
    + by constructor.
Qed.

Lemma translate_fields_raises schema columns e :
  translate_fields schema columns = inl e →
  ∃ message, e = UnsupportedTableColumn message.
Proof.
  revert columns.
  induction schema as [|f rest IH]; intros columns; cbn [translate_fields]; [done|].
  case_bool_decide; [intros [= <-]; eauto|].
  destruct (COLUMN_MAP !! field_type f) as [ct|]; [|intros [= <-]; eauto].
  destruct (PyStr.truthy ct); [apply IH|intros [= <-]; eauto].
Qed.

Lemma unsupported_message_names f :
  ∃ before after, unsupported_message f = before +:+ name f +:+ after.
Proof.
  exists ("Field " +:+ PyStr.dquote),
    (PyStr.dquote +:+ " has unsupported type "
     +:+ PyStr.dquote +:+ field_type f +:+ PyStr.dquote).
  unfold unsupported_message. simpl. reflexivity.
Qed.

Lemma get_bq_table_columns_answer {W} (handler : Handler W)
    (bq_table_config : BigQueryTableConfig) (s : State W)
    (schema : list SchemaField) (w' : W) :
  handler (world s)
    (GetTable (dataset_name bq_table_config) (table_name bq_table_config))
  = (Some schema, w') →
  (get_bq_table_columns handler bq_table_config s).1
  = translate_fields schema [].
Proof.
  intros Hget. unfold get_bq_table_columns, mbind, M_bind, call.
  rewrite Hget. by destruct (translate_fields schema []).
Qed.

(** C1: once the table lookup has answered with a schema,
    [get_bq_table_columns] raises [UnsupportedTableColumn] with a message
    that names the first column whose type is RECORD, STRUCT or missing from
    [COLUMN_MAP]; when every column's type is in [COLUMN_MAP] it returns one
    pair per column, in the order of the schema, carrying the column's name
    and the type [COLUMN_MAP] gives; and [COLUMN_MAP] holds exactly the
    seventeen entries of the specification's table. *)
Theorem get_bq_table_columns_total_or_fail {W} (handler : Handler W)
    (bq_table_config : BigQueryTableConfig) (s : State W)
    (schema : list SchemaField) (w' : W) :
  handler (world s)
    (GetTable (dataset_name bq_table_config) (table_name bq_table_config))
  = (Some schema, w') →
  (∀ pre f post,
     schema = pre ++ f :: post → Forall supported pre → unsupported f →
     (get_bq_table_columns handler bq_table_config s).1
     = inl (UnsupportedTableColumn (unsupported_message f))
     ∧ ∃ before after, unsupported_message f = before +:+ name f +:+ after)
  ∧ (Forall supported schema →
     ∃ columns,
       (get_bq_table_columns handler bq_table_config s).1 = inr columns
       ∧ columns.*1 = name <$> schema
       ∧ Forall2 (λ f c, COLUMN_MAP !! field_type f = Some c.2) schema columns)
  ∧ (∀ k v, COLUMN_MAP !! k = Some v ↔ (k, v) ∈ spec_type_table).
Proof.
  intros Hget. rewrite (get_bq_table_columns_answer _ _ _ _ _ Hget).
  split; [|split].
  - intros pre f post -> Hpre Hf. split.
    + by apply translate_fields_first_unsupported.
    + apply unsupported_message_names.
  - intros Hall.
    destruct (translate_fields_all_supported schema [] Hall)
      as (new & Hrun & Hnames & Htypes).
    exists new. by rewrite Hrun.
  - apply COLUMN_MAP_table.
Qed.

Lemma get_bq_table_columns_total_or_fail_witness :
  let s := mkState (SpecWorld.scenario_world SpecWorld.nested_schema SpecWorld.never) [] in
  let s' := mkState (SpecWorld.scenario_world SpecWorld.flat_schema SpecWorld.never) [] in
  (get_bq_table_columns SpecWorld.handler (mkBQ "proj" "ds" "events") s).1
  = inl (UnsupportedTableColumn
           (unsupported_message (mkField "tags" "RECORD")))
  ∧ ∃ columns,
      (get_bq_table_columns SpecWorld.handler (mkBQ "proj" "ds" "events") s').1
      = inr columns
      ∧ columns.*1 = ["id"; "name"].
Proof.
  intros s s'. split.
  - refine (proj1 (proj1 (get_bq_table_columns_total_or_fail SpecWorld.handler
        (mkBQ "proj" "ds" "events") s SpecWorld.nested_schema (world s) eq_refl)
        [mkField "id" "INT64"] (mkField "tags" "RECORD") [] eq_refl _ _)).
    + constructor; [|constructor]. exists "Int64". vm_compute. reflexivity.
    + left. reflexivity.
  - destruct (proj1 (proj2 (get_bq_table_columns_total_or_fail SpecWorld.handler
        (mkBQ "proj" "ds" "events") s' SpecWorld.flat_schema (world s') eq_refl)))
      as (columns & Hrun & Hnames & _).
    + constructor; [|constructor; [|constructor]].
      * exists "Int64". vm_compute. reflexivity.
      * exists "String". vm_compute. reflexivity.
    + exists columns. split; [exact Hrun | exact Hnames].
Defined.

(** ** Concatenation, slices and stripped ends *)

Lemma append_cons c (a b : string) : String c a +:+ b = String c (a +:+ b).
Proof. reflexivity. Qed.

Lemma slice_to_rest n s : ∃ rest, s = PyStr.slice_to n s +:+ rest.
Proof.
  revert s. induction n as [|n IH]; intros [|c s]; cbn; eauto.
  destruct (IH s) as [rest Hrest]. exists rest. rewrite append_cons. by f_equal.
Qed.

Lemma rstrip_rest c s : ∃ n, s = PyStr.rstrip c s +:+ repeat_char c n.
Proof.
  induction s as [|a s [n IH]]; cbn; [by exists 0|].
  destruct (PyStr.rstrip c s) as [|b r] eqn:E.
  - destruct (Ascii.eqb_spec a c) as [->|Hne].
    + exists (S n). change (String c s = String c (repeat_char c n)).
      by f_equal.
    + exists n. rewrite append_cons. by f_equal.
  - exists n. rewrite append_cons. by f_equal.
Qed.

Lemma append_assoc (a b c : string) : (a +:+ b) +:+ c = a +:+ (b +:+ c).
Proof. induction a as [|x a IH]; [done|]. rewrite !append_cons. by f_equal. Qed.

Lemma append_empty_r (a : string) : a +:+ "" = a.
Proof. induction a as [|x a IH]; [done|]. rewrite append_cons. by f_equal. Qed.

Lemma length_append (a b : string) :
  String.length (a +:+ b) = String.length a + String.length b.
Proof.
  induction a as [|x a IH]; [done|]. rewrite append_cons. cbn. by rewrite IH.
Qed.

Lemma length_repeat_char c n : String.length (repeat_char c n) = n.
Proof. induction n as [|n IH]; [done|]. cbn. by rewrite IH. Qed.

(** ** The temporary table name *)

Lemma temp_dest_short d s :
  (String.length (temp_dest_full d s) ≤ 63)%nat →
  temp_dest d s = temp_dest_full d s.
Proof.
  intros H. unfold temp_dest.
  destruct (Nat.ltb_spec 63 (String.length (temp_dest_full d s))); [lia|done].
Qed.

Lemma temp_dest_long d s :
  (63 < String.length (temp_dest_full d s))%nat →
  temp_dest d s = PyStr.rstrip "_" (PyStr.slice_to 63 (temp_dest_full d s)).
Proof.
  intros H. unfold temp_dest.
  destruct (Nat.ltb_spec 63 (String.length (temp_dest_full d s))); [done|lia].
Qed.

(** C3, as the code has it: the temporary table name never has more than 63
    characters; when the full name [destination_sync] is longer than 63
    characters the name is [full[0:63].rstrip("_")]: the full name is the
    temporary name, then [n] underscores that fill it up to the first 63
    characters, then the rest that was cut off, and the temporary name does
    not end in an underscore; a full name of at most 63 characters is used
    as it is. *)
Theorem temp_dest_bounded (d s : string) :
  (String.length (temp_dest d s) ≤ 63)%nat
  ∧ ((63 < String.length (temp_dest_full d s))%nat →
     temp_dest d s = PyStr.rstrip "_" (PyStr.slice_to 63 (temp_dest_full d s))
     ∧ PyStr.ends_with "_" (temp_dest d s) = false
     ∧ ∃ (n : nat) (rest : string),
         temp_dest_full d s = (temp_dest d s +:+ repeat_char "_" n) +:+ rest
         ∧ (String.length (temp_dest d s) + n = 63)%nat
         ∧ PyStr.slice_to 63 (temp_dest_full d s)
           = temp_dest d s +:+ repeat_char "_" n)
  ∧ ((String.length (temp_dest_full d s) ≤ 63)%nat →
     temp_dest d s = temp_dest_full d s).
Proof.
  split; [|split].
  - destruct (Nat.le_gt_cases (String.length (temp_dest_full d s)) 63) as [H|H].
    + by rewrite temp_dest_short.
    + rewrite temp_dest_long by done.
      etrans; [apply length_rstrip|]. rewrite length_slice_to. lia.
  - intros H. rewrite temp_dest_long by done. split; [done|]. split.
    + apply ends_with_rstrip.
    + destruct (slice_to_rest 63 (temp_dest_full d s)) as [rest Hrest].
      destruct (rstrip_rest "_" (PyStr.slice_to 63 (temp_dest_full d s)))
        as [n Hn].
      assert (String.length
                (PyStr.rstrip "_" (PyStr.slice_to 63 (temp_dest_full d s))
                 +:+ repeat_char "_" n) = 63) as Hlen
        by (rewrite <- Hn, length_slice_to; lia).
      rewrite length_append, length_repeat_char in Hlen.
      exists n, rest. rewrite <- Hn. done.
  - apply temp_dest_short.
Qed.

Lemma temp_dest_bounded_witness :
  let d := "events_by_day_and_by_project_and_by_artifact_namespace" in
  let s := "2024-01-01-nightly" in
  temp_dest d s
  = "events_by_day_and_by_project_and_by_artifact_namespace_2024_01"
  ∧ (temp_dest d s = PyStr.rstrip "_" (PyStr.slice_to 63 (temp_dest_full d s))
     ∧ PyStr.ends_with "_" (temp_dest d s) = false
     ∧ ∃ (n : nat) (rest : string),
         temp_dest_full d s = (temp_dest d s +:+ repeat_char "_" n) +:+ rest
         ∧ (String.length (temp_dest d s) + n = 63)%nat
         ∧ PyStr.slice_to 63 (temp_dest_full d s)
           = temp_dest d s +:+ repeat_char "_" n)
  ∧ temp_dest "events" "run-1" = temp_dest_full "events" "run-1".
Proof.
  intros d s. split; [vm_compute; reflexivity|]. split.
  - apply (proj1 (proj2 (temp_dest_bounded d s))). vm_compute. lia.
  - apply (proj2 (proj2 (temp_dest_bounded "events" "run-1"))). vm_compute. lia.
Defined.

(** C3 as stated fails: a sync id that ends in a dash gives a short name
    that ends in an underscore. *)
Lemma temp_dest_trailing_separator :
  temp_dest "events" "run-" = "events_run_"
  ∧ ¬ (∀ d s : string,
         (String.length (temp_dest d s) ≤ 63)%nat
         ∧ PyStr.ends_with "_" (temp_dest d s) = false).
Proof.
  split; [vm_compute; reflexivity|].
  intros H. destruct (H "events" "run-") as [_ Hend].
  vm_compute in Hend. discriminate.
Qed.

(** C4, as the code has it: for one destination table, two sync ids that
    still differ once every dash is an underscore, and whose full names have
    at most 63 characters, get different temporary table names. *)
Theorem temp_dest_injective_when_short (d s1 s2 : string) :
  PyStr.replace "-" "_" s1 ≠ PyStr.replace "-" "_" s2 →
  (String.length (temp_dest_full d s1) ≤ 63)%nat →
  (String.length (temp_dest_full d s2) ≤ 63)%nat →
  temp_dest d s1 ≠ temp_dest d s2.
Proof.
  intros Hne H1 H2. rewrite !temp_dest_short by done.
  unfold temp_dest_full. intros Heq.
  apply append_inj_r in Heq. simpl in Heq. injection Heq as Heq. done.
Qed.

Lemma temp_dest_injective_when_short_witness :
  temp_dest "events" "run-1" ≠ temp_dest "events" "run-2".
Proof.
  apply temp_dest_injective_when_short.
  - vm_compute. discriminate.
  - vm_compute. lia.
  - vm_compute. lia.
Defined.

(** C4 as stated fails: a dash and an underscore in the same place give the
    same temporary table name. *)
Lemma temp_dest_collision :
  "a-b" ≠ "a_b"
  ∧ temp_dest "events" "a-b" = temp_dest "events" "a_b"
  ∧ ¬ (∀ d s1 s2 : string, s1 ≠ s2 → temp_dest d s1 ≠ temp_dest d s2).
Proof.
  split; [discriminate|]. split; [vm_compute; reflexivity|].
  intros H. apply (H "events" "a-b" "a_b"); [discriminate|].
  vm_compute. reflexivity.
Qed.

(** ** Stepping through the asset body *)

Lemma bind_call_returns {W A} (h : Handler W) c (k : Resp c → M W A) s r w' :
  h (world s) c = (Some r, w') →
  (call h c ≫= k) s = k r (mkState w' (trace s ++ [(c, true)])).
Proof. intros E. unfold mbind, M_bind, call. by rewrite E. Qed.

Lemma bind_call_raises {W A} (h : Handler W) c (k : Resp c → M W A) s w' :
  h (world s) c = (None, w') →
  (call h c ≫= k) s = (inl (CallRaised c), mkState w' (trace s ++ [(c, false)])).
Proof. intros E. unfold mbind, M_bind, call. by rewrite E. Qed.

Lemma bind_assoc {W A B C} (m : M W A) (f : A → M W B) (g : B → M W C) s :
  ((m ≫= f) ≫= g) s = (m ≫= (λ a, f a ≫= g)) s.
Proof. unfold mbind, M_bind. by destruct (m s) as [[e|a] s']. Qed.

Lemma bind_ret {W A B} (a : A) (k : A → M W B) s : (mret a ≫= k) s = k a s.
Proof. reflexivity. Qed.

Lemma bind_raise {W A B} (e : Exception) (k : A → M W B) s :
  (raise e ≫= k) s = (inl e, s).
Proof. reflexivity. Qed.

Ltac answer H :=
  match type of H with
  | (call ?h ?c ≫= ?k) ?s = _ =>
      let w0 := eval cbn [world] in (world s) in
      let E := fresh "E" in
      let H' := fresh in
      destruct (h w0 c) as [[?r|] ?w] eqn:E;
      [ pose proof (eq_trans (eq_sym (bind_call_returns h c k s _ _ E)) H) as H'
      | pose proof (eq_trans (eq_sym (bind_call_raises h c k s _ E)) H) as H' ];
      clear H; rename H' into H;
      cbn [world trace app fst snd replay default from_option id] in *
  end.

Ltac use_answers :=
  repeat match goal with
    | E : _ = (_, _) |- _ => rewrite E; cbn [fst snd is_return default from_option id]
    | E : translate_fields _ _ = _ |- _ => rewrite E
    end.

Ltac unfold_log :=
  cbn [fst snd world trace calls_of fmap list_fmap replay agrees].

Ltac raised k :=
  match goal with H : _ = ?out |- _ => subst out end;
  unfold_log; use_answers;
  split; [reflexivity|]; split; [repeat split|];
  right; left; eexists k, _;
  split; [reflexivity|]; split; [reflexivity|]; split; [reflexivity|];
  first [lia | intros _; reflexivity].

Section Runs.

Context {W : Type} (handler : Handler W) (gcs_to_http_url : string → string)
        (asset_config : Bq2ClickhouseAssetConfig) (w : W).

Lemma materialize_outcome out :
  materialize handler gcs_to_http_url asset_config w = out →
  let plan := run_plan handler gcs_to_http_url asset_config w in
  world out.2 = replay handler w (calls_of (trace out.2))
  ∧ agrees handler w (trace out.2)
  ∧ ((out.1 = inr {| success := true;
                     asset := asset_name asset_config;
                     gcs_glob := answered_glob handler asset_config w;
                     clickhouse_temp_table :=
                       temp_dest (destination_table_name asset_config)
                                 (sync_id asset_config) |}
      ∧ trace out.2 = returned plan
      ∧ translate_fields (answered_schema handler asset_config w) []
        = inr (answered_columns handler asset_config w))
     ∨ (∃ k c, plan !! k = Some c
          ∧ out.1 = inl (CallRaised c)
          ∧ trace out.2 = returned (take k plan) ++ [(c, false)]
          ∧ (3 ≤ k → translate_fields (answered_schema handler asset_config w) []
                     = inr (answered_columns handler asset_config w)))
     ∨ (∃ message, out.1 = inl (UnsupportedTableColumn message)
          ∧ translate_fields (answered_schema handler asset_config w) []
            = inl (UnsupportedTableColumn message)
          ∧ trace out.2 = returned (take 3 plan))).
Proof.
  intros Hrun plan. subst plan.
  unfold materialize, bq2clickhouse_asset in Hrun.
  unfold run_plan, call_plan, answered_columns, answered_schema, answered_glob.
  cbn [replay] in *.
  answer Hrun; [|raised 0].
  answer Hrun; [|raised 1].
  unfold get_bq_table_columns in Hrun. rewrite bind_assoc in Hrun.
  answer Hrun; [|raised 2].
  destruct (translate_fields _ []) as [e|columns] eqn:Ht in Hrun.
  { rewrite bind_raise in Hrun.
    destruct (translate_fields_raises _ _ _ Ht) as [message ->].
    subst out. unfold_log. use_answers.
    split; [reflexivity|]. split; [repeat split|].
    right; right. exists message. repeat split. }
  rewrite bind_ret in Hrun.
  answer Hrun; [|raised 3].
  answer Hrun; [|raised 4].
  answer Hrun; [|raised 5].
  answer Hrun; [|raised 6].
  answer Hrun; [|raised 7].
  answer Hrun; [|raised 8].
  answer Hrun; [|raised 9].
  answer Hrun; [|raised 10].
  unfold mret, M_ret in Hrun. subst out. unfold_log. use_answers.
  split; [reflexivity|]. split; [repeat split|].
  left. repeat split.
Qed.
End Runs.


(** ** The log of a run, case by case *)

Ltac list_reduce :=
  cbn [lookup list_lookup take returned fmap list_fmap app calls_of fst snd].

Ltac list_reduce_in H :=
  cbn [lookup list_lookup take returned fmap list_fmap app calls_of fst snd] in H.

Ltac split_index k Hk Hlog n :=
  lazymatch n with
  | O => discriminate Hk
  | S ?n' =>
      destruct k as [|k];
      [ list_reduce_in Hk; injection Hk as <-; list_reduce_in Hlog
      | split_index k Hk Hlog n' ]
  end.

Ltac run_cases handler url cfg w :=
  let Hworld := fresh "Hworld" in
  let Hagree := fresh "Hagree" in
  let Hres := fresh "Hres" in
  let Hlog := fresh "Hlog" in
  let Htr := fresh "Htr" in
  let Hk := fresh "Hk" in
  let k := fresh "k" in
  let c := fresh "c" in
  let m := fresh "message" in
  destruct (materialize_outcome handler url cfg w _ eq_refl)
    as (Hworld & Hagree
        & [(Hres & Hlog & Htr)
          | [(k & c & Hk & Hres & Hlog & Htr)
            | (m & Hres & Htr & Hlog)]]);
  unfold run_plan, call_plan in *;
  [ list_reduce_in Hlog
  | split_index k Hk Hlog 11
  | list_reduce_in Hlog ].

(** Membership of an entry in a log that is spelled out. *)
Ltac in_log Hin :=
  rewrite ?elem_of_cons, elem_of_nil in Hin;
  repeat (destruct Hin as [Hin|Hin]; [try discriminate Hin|]);
  try contradiction.

Section Logs.
Context {W : Type} (handler : Handler W) (gcs_to_http_url : string → string)
        (asset_config : Bq2ClickhouseAssetConfig) (w : W).

Local Abbreviation run := (materialize handler gcs_to_http_url asset_config w).
Local Abbreviation plan := (run_plan handler gcs_to_http_url asset_config w).
Local Abbreviation dest := (destination_table_name asset_config).
Local Abbreviation temp :=
  (temp_dest (destination_table_name asset_config) (sync_id asset_config)).
Local Abbreviation cols := (answered_columns handler asset_config w).
Local Abbreviation glob := (answered_glob handler asset_config w).

Lemma translation_failure_log message :
  run.1 = inl (UnsupportedTableColumn message) →
  trace run.2 = returned (take 3 plan)
  ∧ translate_fields (answered_schema handler asset_config w) []
    = inl (UnsupportedTableColumn message)
  ∧ world run.2 = replay handler w (take 3 plan).
Proof.
  run_cases handler gcs_to_http_url asset_config w.
  all: rewrite Hres; intros Hfail; try discriminate Hfail.
  injection Hfail as <-. rewrite Hworld, Hlog. done.
Qed.

Lemma import_failure_log t u :
  (ImportData t u, false) ∈ trace run.2 →
  t = temp ∧ u = gcs_to_http_url glob
  ∧ run.1 = inl (CallRaised (ImportData t u))
  ∧ trace run.2 = returned (take 6 plan) ++ [(ImportData t u, false)]
  ∧ world run.2 = replay handler w (take 7 plan).
Proof.
  run_cases handler gcs_to_http_url asset_config w.
  all: rewrite Hworld, Hres, Hlog; intros Hin; in_log Hin.
  injection Hin as -> ->. done.
Qed.

Lemma cleanup_failure_log b f :
  (BatchDeleteFolder b f, false) ∈ trace run.2 →
  run.1 = inl (CallRaised (BatchDeleteFolder b f))
  ∧ trace run.2 = returned (take 10 plan) ++ [(BatchDeleteFolder b f, false)].
Proof.
  run_cases handler gcs_to_http_url asset_config w.
  all: rewrite Hres, Hlog; intros Hin; in_log Hin.
  injection Hin as -> ->. done.
Qed.

Lemma result_log res :
  run.1 = inr res →
  res = {| success := true;
           asset := asset_name asset_config;
           gcs_glob := glob;
           clickhouse_temp_table := temp |}
  ∧ trace run.2 = returned plan.
Proof.
  run_cases handler gcs_to_http_url asset_config w.
  all: rewrite Hres, Hlog; intros Hin; try discriminate Hin.
  injection Hin as <-. done.
Qed.

Lemma log_is_plan_prefix :
  ∃ k, k ≤ 11
    ∧ calls_of (trace run.2) = take k plan
    ∧ (trace run.2 = returned (take k plan)
       ∨ ∃ c, plan !! (k - 1) = Some c ∧ run.1 = inl (CallRaised c)
              ∧ trace run.2 = returned (take (k - 1) plan) ++ [(c, false)]).
Proof.
  run_cases handler gcs_to_http_url asset_config w.
  all: rewrite ?Hres, Hlog.
  - exists 11. split; [lia|]. split; [done|]. by left.
  - exists 1. split; [lia|]. split; [done|]. right. by eexists.
  - exists 2. split; [lia|]. split; [done|]. right. by eexists.
  - exists 3. split; [lia|]. split; [done|]. right. by eexists.
  - exists 4. split; [lia|]. split; [done|]. right. by eexists.
  - exists 5. split; [lia|]. split; [done|]. right. by eexists.
  - exists 6. split; [lia|]. split; [done|]. right. by eexists.
  - exists 7. split; [lia|]. split; [done|]. right. by eexists.
  - exists 8. split; [lia|]. split; [done|]. right. by eexists.
  - exists 9. split; [lia|]. split; [done|]. right. by eexists.
  - exists 10. split; [lia|]. split; [done|]. right. by eexists.
  - exists 11. split; [lia|]. split; [done|]. right. by eexists.
  - exists 3. split; [lia|]. split; [done|]. by left.
Qed.


Lemma clickhouse_calls_in_order :
  List.filter is_clickhouse_call (calls_of (trace run.2))
  `prefix_of`
  [ CreateTable dest cols (index asset_config) true;
    CreateTable temp cols (index asset_config) false;
    ImportData temp (gcs_to_http_url glob);
    DropTable dest;
    RenameTable temp dest ].
Proof.
  run_cases handler gcs_to_http_url asset_config w.
  all: rewrite Hlog; list_reduce; cbn [List.filter is_clickhouse_call].
  all: try apply prefix_nil.
  all: repeat apply prefix_cons.
  all: try apply prefix_nil.
Qed.

Lemma load_reached t u o :
  (ImportData t u, o) ∈ trace run.2 →
  t = temp ∧ u = gcs_to_http_url glob
  ∧ take 3 (List.filter is_clickhouse_call (calls_of (trace run.2)))
    = [ CreateTable dest cols (index asset_config) true;
        CreateTable temp cols (index asset_config) false;
        ImportData temp (gcs_to_http_url glob) ]
  ∧ (handler (replay handler w [BigQueryGetClient])
       (ExportToGcs (source_config asset_config) (gcs_path asset_config))).1
    = Some glob.
Proof.
  destruct (materialize_outcome handler gcs_to_http_url asset_config w _ eq_refl)
    as (_ & Hagree & _).
  revert Hagree.
  run_cases handler gcs_to_http_url asset_config w.
  all: rewrite Hlog; intros Hag Hin; in_log Hin.
  all: injection Hin as -> -> ->.
  all: list_reduce; cbn [List.filter is_clickhouse_call take].
  all: split; [done|]; split; [done|]; split; [done|].
  all: cbn [agrees replay] in Hag; destruct Hag as (_ & Hexp & _).
  all: unfold answered_glob; cbn [replay]; revert Hexp.
  all: match goal with |- context [(handler ?a ?b).1] => by destruct (handler a b).1 end.
Qed.

Lemma staging_create_raises t c i :
  (CreateTable t c i false, false) ∈ trace run.2 →
  run.1 = inl (CallRaised (CreateTable t c i false))
  ∧ t = temp
  ∧ Forall (λ c, match c with ImportData _ _ => False | _ => True end)
      (calls_of (trace run.2)).
Proof.
  run_cases handler gcs_to_http_url asset_config w.
  all: rewrite Hres, Hlog; intros Hin; in_log Hin.
  injection Hin as -> -> ->. list_reduce. repeat split; repeat constructor.
Qed.

Lemma cleanup_call_log b f o :
  (BatchDeleteFolder b f, o) ∈ trace run.2 →
  b = staging_bucket asset_config ∧ f = gcs_relative_dir asset_config
  ∧ trace run.2 = returned (take 10 plan) ++ [(BatchDeleteFolder b f, o)].
Proof.
  run_cases handler gcs_to_http_url asset_config w.
  all: rewrite Hlog; intros Hin; in_log Hin.
  all: injection Hin as -> -> ->; repeat split.
Qed.

Lemma failure_without_cleanup e :
  run.1 = inl e →
  (∀ b f, e ≠ CallRaised (BatchDeleteFolder b f)) →
  Forall (λ c, is_batch_delete c = false) (calls_of (trace run.2)).
Proof.
  run_cases handler gcs_to_http_url asset_config w.
  all: rewrite Hres, Hlog; intros Hin Hne; try discriminate Hin.
  all: injection Hin as <-; list_reduce.
  all: try (exfalso; by eapply Hne).
  all: repeat constructor.
Qed.

Lemma create_table_arguments t c i b o :
  (CreateTable t c i b, o) ∈ trace run.2 →
  c = cols ∧ i = index asset_config
  ∧ translate_fields (answered_schema handler asset_config w) [] = inr cols
  ∧ ((t = dest ∧ b = true) ∨ (t = temp ∧ b = false)).
Proof.
  run_cases handler gcs_to_http_url asset_config w.
  all: rewrite Hlog; intros Hin; in_log Hin.
  all: injection Hin as -> -> -> -> ->.
  all: try specialize (Htr ltac:(lia)).
  all: auto 10.
Qed.

(** Progress of the load: when the calls before a step return and the schema
    translates, the step is the next entry of the log, with the outcome the
    handler gives it there. *)
Lemma load_steps_performed :
  let pre :=
    [ BigQueryGetClient;
      ExportToGcs (source_config asset_config) (gcs_path asset_config);
      GetTable (dataset_name (source_config asset_config))
               (table_name (source_config asset_config));
      ClickhouseGetClient ] in
  let ensure := CreateTable dest cols (index asset_config) true in
  let staging := CreateTable temp cols (index asset_config) false in
  let load := ImportData temp (gcs_to_http_url glob) in
  translate_fields (answered_schema handler asset_config w) [] = inr cols →
  (agrees handler w (returned pre) →
   take 5 (trace run.2)
   = returned pre
     ++ [(ensure, is_return (handler (replay handler w pre) ensure).1)])
  ∧ (agrees handler w (returned (pre ++ [ensure])) →
     take 6 (trace run.2)
     = returned (pre ++ [ensure])
       ++ [(staging,
            is_return (handler (replay handler w (pre ++ [ensure])) staging).1)])
  ∧ (agrees handler w (returned (pre ++ [ensure; staging])) →
     take 7 (trace run.2)
     = returned (pre ++ [ensure; staging])
       ++ [(load,
            is_return
              (handler (replay handler w (pre ++ [ensure; staging])) load).1)]).
Proof.
  intros pre ensure staging load Htrans. subst pre ensure staging load.
  split; [|split]; intros Hret.
  all: run_cases handler gcs_to_http_url asset_config w.
  all: try congruence.
  all: rewrite Hlog in Hagree |- *.
  all: cbn [agrees returned fmap list_fmap app replay take fst snd]
         in Hret, Hagree |- *.
  all: repeat match goal with H : _ ∧ _ |- _ => destruct H end.
  all: congruence.
Qed.

Lemma success_clickhouse_calls res :
  run.1 = inr res →
  List.filter is_clickhouse_call (calls_of (trace run.2))
  = [ CreateTable dest cols (index asset_config) true;
      CreateTable temp cols (index asset_config) false;
      ImportData temp (gcs_to_http_url glob);
      DropTable dest;
      RenameTable temp dest ].
Proof.
  run_cases handler gcs_to_http_url asset_config w.
  all: rewrite Hres, Hlog; intros Hin; try discriminate Hin.
  reflexivity.
Qed.

End Logs.

Lemma agrees_app {W} (handler : Handler W) w t1 t2 :
  agrees handler w (t1 ++ t2) → agrees handler w t1.
Proof.
  revert w. induction t1 as [|[c b] t1 IH]; intros w; cbn [app agrees]; [done|].
  intros [Hret Hrest]. split; [done|]. by apply IH.
Qed.

Lemma staging_created_log {W} (handler : Handler W) gcs_to_http_url
    asset_config w t c i :
  (CreateTable t c i false, true)
    ∈ trace (materialize handler gcs_to_http_url asset_config w).2 →
  ∃ rest,
    trace (materialize handler gcs_to_http_url asset_config w).2
    = returned (take 6 (run_plan handler gcs_to_http_url asset_config w)) ++ rest.
Proof.
  run_cases handler gcs_to_http_url asset_config w.
  all: rewrite Hlog; intros Hin; in_log Hin.
  all: eexists; list_reduce; reflexivity.
Qed.

Lemma load_reached_log {W} (handler : Handler W) gcs_to_http_url
    asset_config w t u o :
  (ImportData t u, o)
    ∈ trace (materialize handler gcs_to_http_url asset_config w).2 →
  ∃ rest,
    trace (materialize handler gcs_to_http_url asset_config w).2
    = returned (take 6 (run_plan handler gcs_to_http_url asset_config w)) ++ rest.
Proof.
  run_cases handler gcs_to_http_url asset_config w.
  all: rewrite Hlog; intros Hin; in_log Hin.
  all: eexists; list_reduce; reflexivity.
Qed.

Lemma swap_done_log {W} (handler : Handler W) gcs_to_http_url
    asset_config w a b :
  (RenameTable a b, true)
    ∈ trace (materialize handler gcs_to_http_url asset_config w).2 →
  ∃ rest,
    trace (materialize handler gcs_to_http_url asset_config w).2
    = returned (take 9 (run_plan handler gcs_to_http_url asset_config w)) ++ rest
    ∧ Forall (λ c, is_clickhouse_call c = false) (calls_of rest).
Proof.
  run_cases handler gcs_to_http_url asset_config w.
  all: rewrite Hlog; intros Hin; in_log Hin.
  all: eexists; list_reduce; split; [reflexivity|].
  all: list_reduce; repeat constructor.
Qed.

Lemma replay_app {W} (handler : Handler W) w cs1 cs2 :
  replay handler w (cs1 ++ cs2) = replay handler (replay handler w cs1) cs2.
Proof.
  revert w. induction cs1 as [|c cs1 IH]; intros w; cbn [app replay]; [done|].
  apply IH.
Qed.

(** ** What a run leaves behind in the reference world *)

Module SpecWorldFacts.
Import SpecWorld.

Lemma under_append p x : under p (p +:+ x) = true.
Proof. unfold under. induction p as [|a p IH]; simpl.
  - by destruct x.
  - destruct (ascii_dec a a); [exact IH|done].
Qed.

Ltac handler_cases w c :=
  unfold handler; destruct (raises w c); [done|];
  cbn [fst snd is_return objects tables shards raises source_schema set_objects set_tables].

Lemma handler_raise_frame w c :
  is_return (handler w c).1 = false → (handler w c).2 = w.
Proof.
  unfold handler. destruct (raises w c); [done|].
  destruct c; cbn; try done.
  - destruct (tables w !! table); [destruct if_not_exists|]; done.
  - destruct (tables w !! table); done.
  - destruct (tables w !! table); done.
  - destruct (tables w !! from_name); [destruct (tables w !! to_name)|]; done.
Qed.

Lemma handler_shards w c : shards (handler w c).2 = shards w.
Proof.
  unfold handler. destruct (raises w c); [done|].
  destruct c; cbn; try done.
  - destruct (tables w !! table); [destruct if_not_exists|]; done.
  - destruct (tables w !! table); done.
  - destruct (tables w !! table); done.
  - destruct (tables w !! from_name); [destruct (tables w !! to_name)|]; done.
Qed.

Lemma handler_objects_kept w c :
  is_batch_delete c = false → objects w ⊆ objects (handler w c).2.
Proof.
  intros Hc. unfold handler. destruct (raises w c); [done|].
  destruct c; cbn; try done.
  - set_solver.
  - destruct (tables w !! table); [destruct if_not_exists|]; done.
  - destruct (tables w !! table); done.
  - destruct (tables w !! table); done.
  - destruct (tables w !! from_name); [destruct (tables w !! to_name)|]; done.
Qed.

Lemma handler_export_writes w src path sh :
  is_return (handler w (ExportToGcs src path)).1 = true →
  sh ∈ shards w →
  path +:+ "/" +:+ sh ∈ objects (handler w (ExportToGcs src path)).2.
Proof.
  unfold handler. destruct (raises w _); [done|]. cbn. intros _ Hsh.
  apply elem_of_union_r, elem_of_list_to_set, list_elem_of_fmap. eauto.
Qed.

Lemma replay_objects_kept w cs :
  Forall (λ c, is_batch_delete c = false) cs →
  objects w ⊆ objects (replay handler w cs).
Proof.
  intros Hcs. revert w. induction Hcs as [|c cs Hc _ IH]; intros w; cbn [replay].
  - done.
  - etrans; [by apply handler_objects_kept|]. apply IH.
Qed.

Lemma replay_exported w t src path sh :
  agrees handler w t →
  (ExportToGcs src path, true) ∈ t →
  Forall (λ c, is_batch_delete c = false) (calls_of t) →
  sh ∈ shards w →
  path +:+ "/" +:+ sh ∈ objects (replay handler w (calls_of t)).
Proof.
  revert w. induction t as [|[c b] t IH]; intros w Hag Hin Hnd Hsh.
  - by apply elem_of_nil in Hin.
  - cbn in Hag. destruct Hag as [Hret Hag].
    unfold calls_of in *. rewrite fmap_cons in *. cbn [fst replay].
    apply Forall_cons in Hnd as [Hc Hnd].
    apply elem_of_cons in Hin as [Hin|Hin].
    + injection Hin as <- <-.
      apply (replay_objects_kept _ _ Hnd). by apply handler_export_writes.
    + apply IH; try done. by rewrite handler_shards.
Qed.


Lemma replay_tables_frame w cs :
  Forall (λ c, is_clickhouse_call c = false) cs →
  tables (replay handler w cs) = tables w.
Proof.
  intros Hcs. revert w. induction Hcs as [|c cs Hc _ IH]; intros w; cbn [replay].
  - done.
  - rewrite IH. unfold handler. destruct (raises w c); [done|]. by destruct c.
Qed.

Lemma handler_tables_frame w c :
  is_clickhouse_call c = false → tables (handler w c).2 = tables w.
Proof.
  intros Hc. unfold handler. destruct (raises w c); [done|].
  by destruct c.
Qed.

Lemma create_returns w t columns idx b :
  is_return (handler w (CreateTable t columns idx b)).1 = true →
  tables (handler w (CreateTable t columns idx b)).2
  = match tables w !! t with
    | Some _ => tables w
    | None => <[t := mkTable columns idx None]> (tables w)
    end
  ∧ (b = false → tables w !! t = None).
Proof.
  unfold handler. destruct (raises w _); [done|]. cbn.
  destruct (tables w !! t); [destruct b|]; done.
Qed.

Lemma import_returns w t u :
  is_return (handler w (ImportData t u)).1 = true →
  ∃ tb, tables w !! t = Some tb
    ∧ tables (handler w (ImportData t u)).2
      = <[t := mkTable (tbl_columns tb) (tbl_index tb) (Some u)]> (tables w).
Proof.
  unfold handler. destruct (raises w _); [done|]. cbn.
  destruct (tables w !! t) as [tb|]; [|done]. eauto.
Qed.

Lemma drop_returns w t :
  is_return (handler w (DropTable t)).1 = true →
  tables (handler w (DropTable t)).2 = delete t (tables w).
Proof.
  unfold handler. destruct (raises w _); [done|]. cbn.
  by destruct (tables w !! t).
Qed.

Lemma rename_returns w a b :
  is_return (handler w (RenameTable a b)).1 = true →
  ∃ tb, tables w !! a = Some tb ∧ tables w !! b = None
    ∧ tables (handler w (RenameTable a b)).2 = <[b := tb]> (delete a (tables w)).
Proof.
  unfold handler. destruct (raises w _); [done|]. cbn.
  destruct (tables w !! a) as [tb|]; [|done].
  destruct (tables w !! b); [done|]. eauto.
Qed.

Ltac walk Hagree :=
  repeat match type of Hagree with
  | is_return (handler ?w ?c).1 = _ ∧ _ =>
      let R := fresh "R" in
      let w' := fresh "w" in
      let E := fresh "E" in
      destruct Hagree as [R Hagree];
      remember ((handler w c).2) as w' eqn:E in *
  end.

Ltac table_steps :=
  repeat match reverse goal with
  | E : ?w' = (handler ?w ?c).2, R : is_return (handler ?w ?c).1 = false |- _ =>
      rewrite (handler_raise_frame w c R) in E; subst w'
  | E : ?w' = (handler ?w ?c).2, R : is_return (handler ?w ?c).1 = true |- _ =>
      let T := fresh "T" in
      first
        [ pose proof (handler_tables_frame w c eq_refl) as T
        | pose proof (create_returns w _ _ _ _ R) as T
        | pose proof (import_returns w _ _ R) as T
        | pose proof (drop_returns w _ R) as T
        | pose proof (rename_returns w _ _ R) as T ];
      rewrite <- E in T; clear E
  end.

Section States.
Variable asset_config : Bq2ClickhouseAssetConfig.
Variable w : World.

Local Abbreviation out := (run asset_config w).
Local Abbreviation plan := (run_plan handler gcs_to_http_url asset_config w).
Local Abbreviation dest := (destination_table_name asset_config).
Local Abbreviation temp :=
  (temp_dest (destination_table_name asset_config) (sync_id asset_config)).
Local Abbreviation cols := (answered_columns handler asset_config w).
Local Abbreviation glob := (answered_glob handler asset_config w).

Lemma run_agrees : agrees handler w (trace out.2).
Proof.
  by destruct (materialize_outcome handler gcs_to_http_url asset_config w _ eq_refl)
    as (_ & Hagree & _).
Qed.

Lemma load_failure_state t u :
  (ImportData t u, false) ∈ trace out.2 →
  is_Some (tables (world out.2) !! temp)
  ∧ (∀ tb, tables w !! dest = Some tb → tables (world out.2) !! dest = Some tb).
Proof.
  intros Hin. pose proof run_agrees as Hagree.
  destruct (import_failure_log handler gcs_to_http_url asset_config w t u Hin)
    as (-> & -> & _ & Hlog & Hworld).
  unfold run in *. rewrite Hworld. rewrite Hlog in Hagree. clear Hworld Hlog Hin.
  unfold run_plan, call_plan in *.
  cbn [take returned fmap list_fmap app agrees replay] in *.
  walk Hagree. table_steps.
  destruct T3 as [T3 _]. destruct T4 as [T4 Hnew]. specialize (Hnew eq_refl).
  rewrite Hnew in T4. rewrite T2, T1, T0, T in T3.
  split.
  - rewrite T4, lookup_insert_eq. eauto.
  - intros tb Htb. rewrite Htb in T3.
    assert (temp ≠ dest) as Hne by (intros Heq; rewrite Heq, T3 in Hnew; congruence).
    rewrite T4, lookup_insert_ne, T3 by done. done.
Qed.

Lemma swap_state a b :
  (RenameTable a b, true) ∈ trace out.2 →
  tables (world out.2) !! dest
  = Some (mkTable cols (index asset_config) (Some (gcs_to_http_url glob)))
  ∧ tables (world out.2) !! temp = None
  ∧ (∀ t, t ≠ dest → t ≠ temp → tables (world out.2) !! t = tables w !! t).
Proof.
  intros Hin. pose proof run_agrees as Hagree.
  destruct (swap_done_log handler gcs_to_http_url asset_config w a b Hin)
    as (rest & Hlog & Hrest).
  destruct (materialize_outcome handler gcs_to_http_url asset_config w _ eq_refl)
    as (Hworld & _ & _).
  unfold run in *. rewrite Hworld, Hlog. rewrite Hlog in Hagree.
  apply agrees_app in Hagree.
  unfold calls_of. rewrite fmap_app, replay_app.
  rewrite (replay_tables_frame _ _ Hrest).
  clear Hworld Hlog Hin Hrest.
  unfold run_plan, call_plan in *.
  cbn [take returned fmap list_fmap app agrees replay calls_of fst] in *.
  walk Hagree. table_steps.
  destruct T3 as [T3 _]. destruct T4 as [T4 Hnew]. specialize (Hnew eq_refl).
  destruct T5 as (tb & Htb & T5). destruct T7 as (tb' & Htb' & _ & T7).
  rewrite Hnew in T4. rewrite T2, T1, T0, T in T3.
  assert (temp ≠ dest) as Hne.
  { intros Heq. rewrite Heq, T3 in Hnew.
    destruct (tables w !! dest) eqn:Hd; [congruence|].
    by rewrite lookup_insert_eq in Hnew. }
  rewrite T4, lookup_insert_eq in Htb. injection Htb as <-. cbn in T5.
  rewrite T6, lookup_delete_ne, T5, lookup_insert_eq in Htb' by done.
  injection Htb' as <-.
  rewrite T7. split; [|split].
  - by rewrite lookup_insert_eq.
  - by rewrite lookup_insert_ne, lookup_delete_eq.
  - intros t Hd Ht.
    rewrite lookup_insert_ne, lookup_delete_ne, T6, lookup_delete_ne, T5,
      lookup_insert_ne, T4, lookup_insert_ne, T3 by done.
    destruct (tables w !! dest); [done|]. by rewrite lookup_insert_ne.
Qed.

Lemma translation_failure_state message :
  out.1 = inl (UnsupportedTableColumn message) →
  tables (world out.2) = tables w.
Proof.
  intros Hres.
  destruct (translation_failure_log handler gcs_to_http_url asset_config w
              message Hres) as (_ & _ & Hworld).
  unfold run in *. rewrite Hworld. apply replay_tables_frame.
  unfold run_plan, call_plan. cbn [take]. repeat constructor.
Qed.

Lemma staging_collision_state t u o :
  is_Some (tables w !! temp) → (ImportData t u, o) ∉ trace out.2.
Proof.
  intros [tb Htb] Hin. pose proof run_agrees as Hagree.
  destruct (load_reached_log handler gcs_to_http_url asset_config w t u o Hin)
    as (rest & Hlog).
  unfold run in *. rewrite Hlog in Hagree. apply agrees_app in Hagree.
  clear Hlog Hin.
  unfold run_plan, call_plan in *.
  cbn [take returned fmap list_fmap app agrees] in *.
  walk Hagree. table_steps.
  destruct T3 as [T3 _]. destruct T4 as [_ Hnew]. specialize (Hnew eq_refl).
  rewrite T2, T1, T0, T in T3. rewrite T3 in Hnew.
  destruct (tables w !! dest) eqn:Hd; [congruence|].
  destruct (decide (dest = temp)) as [Heq|Hne].
  - by rewrite <- Heq, lookup_insert_eq in Hnew.
  - rewrite lookup_insert_ne in Hnew by done. congruence.
Qed.

Lemma staging_created_state :
  (CreateTable temp cols (index asset_config) false, true) ∈ trace out.2 →
  tables (replay handler w (take 6 plan)) !! temp
  = Some (mkTable cols (index asset_config) None)
  ∧ (tables w !! dest = None →
     tables (replay handler w (take 6 plan)) !! dest
     = Some (mkTable cols (index asset_config) None)).
Proof.
  intros Hin. pose proof run_agrees as Hagree.
  destruct (staging_created_log handler gcs_to_http_url asset_config w _ _ _ Hin)
    as (rest & Hlog).
  unfold run in *. rewrite Hlog in Hagree. apply agrees_app in Hagree.
  clear Hlog Hin.
  unfold run_plan, call_plan in *.
  cbn [take returned fmap list_fmap app agrees replay calls_of fst] in *.
  walk Hagree. table_steps.
  destruct T3 as [T3 _]. destruct T4 as [T4 Hnew]. specialize (Hnew eq_refl).
  rewrite Hnew in T4. rewrite T2, T1, T0, T in T3.
  split.
  - by rewrite T4, lookup_insert_eq.
  - intros Hd. rewrite Hd in T3.
    assert (temp ≠ dest) as Hne.
    { intros Heq. by rewrite Heq, T3, lookup_insert_eq in Hnew. }
    by rewrite T4, lookup_insert_ne, T3, lookup_insert_eq.
Qed.

Lemma staged_objects_remain sh :
  (ExportToGcs (source_config asset_config) (gcs_path asset_config), true)
    ∈ trace out.2 →
  Forall (λ c, is_batch_delete c = false) (calls_of (trace out.2)) →
  sh ∈ shards w →
  gcs_path asset_config +:+ "/" +:+ sh
    ∈ objects_under (gcs_path asset_config) (world out.2).
Proof.
  intros Hexp Hkeep Hsh.
  destruct (materialize_outcome handler gcs_to_http_url asset_config w _ eq_refl)
    as (Hworld & Hagree & _).
  unfold objects_under. apply elem_of_filter. split; [apply under_append|].
  unfold run in *. rewrite Hworld. by eapply replay_exported.
Qed.

End States.
End SpecWorldFacts.

(** ** The claims about a run *)

Lemma returned_calls cs : calls_of (returned cs) = cs.
Proof.
  unfold calls_of, returned. rewrite <- list_fmap_compose.
  induction cs as [|c cs IH]; [done|]. rewrite fmap_cons. by f_equal.
Qed.

Lemma returned_all cs : Forall (λ e : Call * bool, e.2 = true) (returned cs).
Proof. unfold returned. apply Forall_fmap. by apply Forall_true. Qed.

(** C2, as the code has it: the export runs before the schema is
    translated.  In a run in which the translation raises
    [UnsupportedTableColumn], the calls made are the BigQuery client, the
    export and the table lookup, all of which returned; neither
    [batch_delete_folder] nor any Clickhouse call is made.  In the reference
    world no table is touched and every shard the export wrote is still under
    the staging path. *)
Theorem translation_failure_effects :
  (∀ W (handler : Handler W) gcs_to_http_url asset_config w message,
     (materialize handler gcs_to_http_url asset_config w).1
     = inl (UnsupportedTableColumn message) →
     trace (materialize handler gcs_to_http_url asset_config w).2
     = returned
         [ BigQueryGetClient;
           ExportToGcs (source_config asset_config) (gcs_path asset_config);
           GetTable (dataset_name (source_config asset_config))
                    (table_name (source_config asset_config)) ]
     ∧ Forall (λ c, is_batch_delete c = false ∧ is_clickhouse_call c = false
                    ∧ c ≠ ClickhouseGetClient ∧ c ≠ GcsGetClient)
         (calls_of (trace (materialize handler gcs_to_http_url asset_config w).2)))
  ∧ (∀ asset_config w message sh,
       (SpecWorld.run asset_config w).1 = inl (UnsupportedTableColumn message) →
       sh ∈ SpecWorld.shards w →
       SpecWorld.tables (world (SpecWorld.run asset_config w).2)
       = SpecWorld.tables w
       ∧ gcs_path asset_config +:+ "/" +:+ sh
           ∈ SpecWorld.objects_under (gcs_path asset_config)
               (world (SpecWorld.run asset_config w).2)).
Proof.
  assert (∀ W (handler : Handler W) gcs_to_http_url asset_config w message,
     (materialize handler gcs_to_http_url asset_config w).1
     = inl (UnsupportedTableColumn message) →
     trace (materialize handler gcs_to_http_url asset_config w).2
     = returned
         [ BigQueryGetClient;
           ExportToGcs (source_config asset_config) (gcs_path asset_config);
           GetTable (dataset_name (source_config asset_config))
                    (table_name (source_config asset_config)) ]) as Hlog.
  { intros W handler url cfg w message Hres.
    by destruct (translation_failure_log handler url cfg w message Hres)
      as (-> & _ & _). }
  split.
  - intros W handler url cfg w message Hres.
    rewrite (Hlog _ _ _ _ _ _ Hres). split; [done|].
    rewrite returned_calls. repeat constructor; done.
  - intros cfg w message sh Hres Hsh. split.
    + by eapply SpecWorldFacts.translation_failure_state.
    + apply SpecWorldFacts.staged_objects_remain; [| |done].
      * unfold SpecWorld.run. rewrite (Hlog _ _ _ _ _ _ Hres). set_solver.
      * unfold SpecWorld.run. rewrite (Hlog _ _ _ _ _ _ Hres), returned_calls.
        repeat constructor.
Qed.

Lemma translation_failure_effects_witness :
  let out := SpecWorld.run SpecWorld.scenario_config
               (SpecWorld.scenario_world SpecWorld.nested_schema SpecWorld.never) in
  calls_of (trace out.2)
  = [ BigQueryGetClient;
      ExportToGcs (mkBQ "proj" "ds" "events") "gs://bkt/bq2clickhouse/run-1/events";
      GetTable "ds" "events" ]
  ∧ "gs://bkt/bq2clickhouse/run-1/events/000000000000.parquet"
      ∈ SpecWorld.objects_under "gs://bkt/bq2clickhouse/run-1/events" (world out.2).
Proof.
  intros out. split.
  - unfold out, SpecWorld.run.
    rewrite (proj1 (proj1 translation_failure_effects _ SpecWorld.handler
      SpecWorld.gcs_to_http_url SpecWorld.scenario_config
      (SpecWorld.scenario_world SpecWorld.nested_schema SpecWorld.never)
      (unsupported_message (mkField "tags" "RECORD")) eq_refl)).
    reflexivity.
  - refine (proj2 (proj2 translation_failure_effects SpecWorld.scenario_config
      (SpecWorld.scenario_world SpecWorld.nested_schema SpecWorld.never)
      (unsupported_message (mkField "tags" "RECORD"))
      "000000000000.parquet" eq_refl _)).
    apply list_elem_of_singleton. reflexivity.
Defined.

(** C2 as stated fails: a run whose translation raises has already
    exported, so an object sits under its staging path afterwards. *)
Lemma translation_failure_leaves_staged_object :
  let w := SpecWorld.scenario_world SpecWorld.nested_schema SpecWorld.never in
  let out := SpecWorld.run SpecWorld.scenario_config w in
  SpecWorld.objects_under (gcs_path SpecWorld.scenario_config) w = ∅
  ∧ out.1 = inl (UnsupportedTableColumn
                   (unsupported_message (mkField "tags" "RECORD")))
  ∧ elements (SpecWorld.objects_under (gcs_path SpecWorld.scenario_config)
                (world out.2))
    = ["gs://bkt/bq2clickhouse/run-1/events/000000000000.parquet"]
  ∧ ¬ (∀ asset_config w message,
         (SpecWorld.run asset_config w).1 = inl (UnsupportedTableColumn message) →
         SpecWorld.objects_under (gcs_path asset_config)
           (world (SpecWorld.run asset_config w).2) = ∅).
Proof.
  intros w out.
  assert (elements (SpecWorld.objects_under (gcs_path SpecWorld.scenario_config)
                      (world out.2))
          = ["gs://bkt/bq2clickhouse/run-1/events/000000000000.parquet"])
    as Hleft by (vm_compute; reflexivity).
  split; [|split; [|split]].
  - vm_compute. reflexivity.
  - vm_compute. reflexivity.
  - exact Hleft.
  - intros Hclaim.
    specialize (Hclaim SpecWorld.scenario_config w _ eq_refl).
    subst out. rewrite Hclaim, elements_empty in Hleft. discriminate Hleft.
Qed.

(** C5: when [import_data] raises, the run ends with that exception; no
    [drop_table], [rename_table] or [batch_delete_folder] call is made in the
    run.  In the reference world the temporary table is still there, a
    destination table that existed before the run is as it was, and every
    exported shard is still under the staging path. *)
Theorem load_failure_frame :
  (∀ W (handler : Handler W) gcs_to_http_url asset_config w t u,
     (ImportData t u, false)
       ∈ trace (materialize handler gcs_to_http_url asset_config w).2 →
     (materialize handler gcs_to_http_url asset_config w).1
     = inl (CallRaised (ImportData t u))
     ∧ Forall (λ c, is_swap_call c = false ∧ is_batch_delete c = false)
         (calls_of (trace (materialize handler gcs_to_http_url asset_config w).2)))
  ∧ (∀ asset_config w t u,
       (ImportData t u, false) ∈ trace (SpecWorld.run asset_config w).2 →
       is_Some (SpecWorld.tables (world (SpecWorld.run asset_config w).2)
                !! temp_dest (destination_table_name asset_config)
                     (sync_id asset_config))
       ∧ (∀ tb,
            SpecWorld.tables w !! destination_table_name asset_config = Some tb →
            SpecWorld.tables (world (SpecWorld.run asset_config w).2)
              !! destination_table_name asset_config = Some tb)
       ∧ (∀ sh, sh ∈ SpecWorld.shards w →
            gcs_path asset_config +:+ "/" +:+ sh
              ∈ SpecWorld.objects_under (gcs_path asset_config)
                  (world (SpecWorld.run asset_config w).2))).
Proof.
  assert (∀ W (handler : Handler W) url cfg w t u,
     (ImportData t u, false) ∈ trace (materialize handler url cfg w).2 →
     (ExportToGcs (source_config cfg) (gcs_path cfg), true)
       ∈ trace (materialize handler url cfg w).2
     ∧ Forall (λ c, is_swap_call c = false ∧ is_batch_delete c = false)
         (calls_of (trace (materialize handler url cfg w).2))) as Hlog.
  { intros W handler url cfg w t u Hin.
    destruct (import_failure_log handler url cfg w t u Hin)
      as (_ & _ & _ & -> & _).
    unfold run_plan, call_plan. list_reduce. split; [set_solver|].
    repeat constructor. }
  split.
  - intros W handler url cfg w t u Hin. split.
    + by destruct (import_failure_log handler url cfg w t u Hin)
        as (_ & _ & -> & _).
    + by apply (Hlog _ _ _ _ _ t u).
  - intros cfg w t u Hin.
    destruct (SpecWorldFacts.load_failure_state cfg w t u Hin) as [Htemp Hdest].
    split; [done|]. split; [done|]. intros sh Hsh.
    destruct (Hlog _ _ _ _ _ t u Hin) as [Hexp Hkeep].
    apply SpecWorldFacts.staged_objects_remain; [done| |done].
    eapply Forall_impl; [exact Hkeep|]. by intros c [_ Hc].
Qed.

Lemma load_failure_frame_witness :
  let out := SpecWorld.run SpecWorld.scenario_config
               (SpecWorld.scenario_world SpecWorld.flat_schema
                  SpecWorld.import_raises) in
  Forall (λ c, is_swap_call c = false ∧ is_batch_delete c = false)
    (calls_of (trace out.2))
  ∧ is_Some (SpecWorld.tables (world out.2) !! "events_run_1").
Proof.
  intros out.
  assert ((ImportData "events_run_1"
             "https://storage.googleapis.com/bkt/bq2clickhouse/run-1/events/*.parquet",
           false) ∈ trace out.2) as Hin.
  { vm_compute. do 6 apply list_elem_of_further. apply list_elem_of_here. }
  split.
  - exact (proj2 (proj1 load_failure_frame _ _ _ _ _ _ _ Hin)).
  - exact (proj1 (proj2 load_failure_frame _ _ _ _ Hin)).
Defined.

(** C6, as the code has it: nothing in the asset catches an exception.  When
    [batch_delete_folder] raises, the run ends with that exception and
    returns no result, although the drop and the rename have returned.  A
    result is returned only when every call, the cleanup included, has
    returned; its [success] is [true] and it has no field for the cleanup. *)
Theorem cleanup_failure_is_fatal {W} (handler : Handler W)
    (gcs_to_http_url : string → string)
    (asset_config : Bq2ClickhouseAssetConfig) (w : W) :
  let out := materialize handler gcs_to_http_url asset_config w in
  let dest := destination_table_name asset_config in
  let temp := temp_dest dest (sync_id asset_config) in
  (∀ b f, (BatchDeleteFolder b f, false) ∈ trace out.2 →
     out.1 = inl (CallRaised (BatchDeleteFolder b f))
     ∧ (DropTable dest, true) ∈ trace out.2
     ∧ (RenameTable temp dest, true) ∈ trace out.2)
  ∧ (∀ res, out.1 = inr res →
       res = {| success := true;
                asset := asset_name asset_config;
                gcs_glob := answered_glob handler asset_config w;
                clickhouse_temp_table := temp |}
       ∧ Forall (λ e : Call * bool, e.2 = true) (trace out.2)
       ∧ (BatchDeleteFolder (staging_bucket asset_config)
            (gcs_relative_dir asset_config), true) ∈ trace out.2).
Proof.
  intros out dest temp. subst out dest temp. split.
  - intros b f Hin.
    destruct (cleanup_failure_log handler gcs_to_http_url asset_config w b f Hin)
      as (-> & ->).
    split; [done|]. unfold run_plan, call_plan. list_reduce. set_solver.
  - intros res Hres.
    destruct (result_log handler gcs_to_http_url asset_config w res Hres)
      as (-> & ->).
    split; [done|]. split; [apply returned_all|].
    unfold run_plan, call_plan. list_reduce. set_solver.
Qed.

Lemma cleanup_failure_is_fatal_witness :
  let out := SpecWorld.run SpecWorld.scenario_config
               (SpecWorld.scenario_world SpecWorld.flat_schema
                  SpecWorld.cleanup_raises) in
  let out' := SpecWorld.run SpecWorld.scenario_config
                (SpecWorld.scenario_world SpecWorld.flat_schema
                   SpecWorld.never) in
  (RenameTable "events_run_1" "events", true) ∈ trace out.2
  ∧ Forall (λ e : Call * bool, e.2 = true) (trace out'.2).
Proof.
  intros out out'. split.
  - refine (proj2 (proj2 (proj1 (cleanup_failure_is_fatal SpecWorld.handler
      SpecWorld.gcs_to_http_url SpecWorld.scenario_config
      (SpecWorld.scenario_world SpecWorld.flat_schema SpecWorld.cleanup_raises))
      "bkt" "bq2clickhouse/run-1/events" _))).
    vm_compute. do 10 apply list_elem_of_further. apply list_elem_of_here.
  - refine (proj1 (proj2 (proj2 (cleanup_failure_is_fatal SpecWorld.handler
      SpecWorld.gcs_to_http_url SpecWorld.scenario_config
      (SpecWorld.scenario_world SpecWorld.flat_schema SpecWorld.never)) _ eq_refl))).
Defined.

(** C6 as stated fails: with the swap done and the cleanup raising, the run
    ends with the exception of [batch_delete_folder] and returns no result. *)
Lemma cleanup_failure_no_result :
  let out := SpecWorld.run SpecWorld.scenario_config
               (SpecWorld.scenario_world SpecWorld.flat_schema
                  SpecWorld.cleanup_raises) in
  trace out.2 !! 8 = Some (RenameTable "events_run_1" "events", true)
  ∧ trace out.2 !! 10
    = Some (BatchDeleteFolder "bkt" "bq2clickhouse/run-1/events", false)
  ∧ out.1 = inl (CallRaised
                   (BatchDeleteFolder "bkt" "bq2clickhouse/run-1/events"))
  ∧ ¬ (∃ res, out.1 = inr res).
Proof.
  intros out. split; [|split; [|split]].
  - vm_compute. reflexivity.
  - vm_compute. reflexivity.
  - vm_compute. reflexivity.
  - intros [res Hres]. vm_compute in Hres. discriminate Hres.
Qed.

(** C7: the Clickhouse calls of a run are, in this order and as far as the
    run gets, [create_table] of the destination with [if_not_exists=True],
    [create_table] of the temporary table with [if_not_exists=False],
    [import_data] of the converted export glob into the temporary table, the
    drop and the rename.  A run that reaches the import has made exactly the
    first three.  When the second [create_table] raises the run ends with
    that exception and imports nothing.  The three calls are made: when the
    schema translates and the four calls before them return, the first
    [create_table] is the fifth entry of the log; when it returns too the
    second [create_table] is the sixth; when that returns too the import is
    the seventh; each with the outcome the handler gives it, and a run that
    returns a result has made all five Clickhouse calls.  In the reference
    world a temporary name that is already taken keeps every run from
    importing. *)
Theorem staged_load_steps :
  (∀ W (handler : Handler W) gcs_to_http_url asset_config w,
     let out := materialize handler gcs_to_http_url asset_config w in
     let dest := destination_table_name asset_config in
     let temp := temp_dest dest (sync_id asset_config) in
     let cols := answered_columns handler asset_config w in
     let glob := answered_glob handler asset_config w in
     List.filter is_clickhouse_call (calls_of (trace out.2))
     `prefix_of`
     [ CreateTable dest cols (index asset_config) true;
       CreateTable temp cols (index asset_config) false;
       ImportData temp (gcs_to_http_url glob);
       DropTable dest;
       RenameTable temp dest ]
     ∧ (∀ t u o, (ImportData t u, o) ∈ trace out.2 →
          take 3 (List.filter is_clickhouse_call (calls_of (trace out.2)))
          = [ CreateTable dest cols (index asset_config) true;
              CreateTable temp cols (index asset_config) false;
              ImportData temp (gcs_to_http_url glob) ]
          ∧ (handler (replay handler w [BigQueryGetClient])
               (ExportToGcs (source_config asset_config)
                  (gcs_path asset_config))).1 = Some glob)
     ∧ (∀ t c i, (CreateTable t c i false, false) ∈ trace out.2 →
          out.1 = inl (CallRaised (CreateTable t c i false))
          ∧ t = temp
          ∧ Forall (λ c, match c with ImportData _ _ => False | _ => True end)
              (calls_of (trace out.2)))
     ∧ (let pre :=
          [ BigQueryGetClient;
            ExportToGcs (source_config asset_config) (gcs_path asset_config);
            GetTable (dataset_name (source_config asset_config))
                     (table_name (source_config asset_config));
            ClickhouseGetClient ] in
        let ensure := CreateTable dest cols (index asset_config) true in
        let staging := CreateTable temp cols (index asset_config) false in
        let load := ImportData temp (gcs_to_http_url glob) in
        translate_fields (answered_schema handler asset_config w) []
        = inr cols →
        (agrees handler w (returned pre) →
         take 5 (trace out.2)
         = returned pre
           ++ [(ensure, is_return (handler (replay handler w pre) ensure).1)])
        ∧ (agrees handler w (returned (pre ++ [ensure])) →
           take 6 (trace out.2)
           = returned (pre ++ [ensure])
             ++ [(staging,
                  is_return
                    (handler (replay handler w (pre ++ [ensure])) staging).1)])
        ∧ (agrees handler w (returned (pre ++ [ensure; staging])) →
           take 7 (trace out.2)
           = returned (pre ++ [ensure; staging])
             ++ [(load,
                  is_return
                    (handler (replay handler w (pre ++ [ensure; staging]))
                       load).1)]))
     ∧ (∀ res, out.1 = inr res →
          List.filter is_clickhouse_call (calls_of (trace out.2))
          = [ CreateTable dest cols (index asset_config) true;
              CreateTable temp cols (index asset_config) false;
              ImportData temp (gcs_to_http_url glob);
              DropTable dest;
              RenameTable temp dest ]))
  ∧ (∀ asset_config w t u o,
       is_Some (SpecWorld.tables w
                !! temp_dest (destination_table_name asset_config)
                     (sync_id asset_config)) →
       (ImportData t u, o) ∉ trace (SpecWorld.run asset_config w).2).
Proof.
  split.
  - intros W handler url cfg w out dest temp cols glob.
    subst out dest temp cols glob. split; [|split; [|split; [|split]]].
    + apply clickhouse_calls_in_order.
    + intros t u o Hin.
      by destruct (load_reached handler url cfg w t u o Hin) as (_ & _ & ? & ?).
    + intros t c i Hin. by apply staging_create_raises.
    + apply load_steps_performed.
    + apply success_clickhouse_calls.
  - intros cfg w t u o. apply SpecWorldFacts.staging_collision_state.
Qed.

Lemma staged_load_steps_witness :
  let out := SpecWorld.run SpecWorld.scenario_config
               (SpecWorld.scenario_world SpecWorld.flat_schema
                  SpecWorld.import_raises) in
  let out' := SpecWorld.run SpecWorld.scenario_config SpecWorld.collision_world in
  let columns := [("id", "Int64"); ("name", "String")] in
  let url :=
    "https://storage.googleapis.com/bkt/bq2clickhouse/run-1/events/*.parquet" in
  take 3 (List.filter is_clickhouse_call (calls_of (trace out.2)))
  = [ CreateTable "events" [("id", "Int64"); ("name", "String")] None true;
      CreateTable "events_run_1" [("id", "Int64"); ("name", "String")] None false;
      ImportData "events_run_1"
        "https://storage.googleapis.com/bkt/bq2clickhouse/run-1/events/*.parquet" ]
  ∧ out'.1
    = inl (CallRaised
             (CreateTable "events_run_1" [("id", "Int64"); ("name", "String")]
                None false))
  ∧ ((ImportData "events_run_1"
        "https://storage.googleapis.com/bkt/bq2clickhouse/run-1/events/*.parquet",
      true) ∉ trace out'.2)
  ∧ take 7 (trace out.2)
    = returned
        [ BigQueryGetClient;
          ExportToGcs (mkBQ "proj" "ds" "events")
            (gcs_path SpecWorld.scenario_config);
          GetTable "ds" "events";
          ClickhouseGetClient;
          CreateTable "events" columns None true;
          CreateTable "events_run_1" columns None false ]
      ++ [(ImportData "events_run_1" url, false)]
  ∧ take 6 (trace out'.2)
    = returned
        [ BigQueryGetClient;
          ExportToGcs (mkBQ "proj" "ds" "events")
            (gcs_path SpecWorld.scenario_config);
          GetTable "ds" "events";
          ClickhouseGetClient;
          CreateTable "events" columns None true ]
      ++ [(CreateTable "events_run_1" columns None false, false)].
Proof.
  intros out out' columns url. split; [|split; [|split; [|split]]].
  - refine (eq_trans (proj1 (proj1 (proj2 (proj1 staged_load_steps _
      SpecWorld.handler SpecWorld.gcs_to_http_url SpecWorld.scenario_config
      (SpecWorld.scenario_world SpecWorld.flat_schema SpecWorld.import_raises)))
      "events_run_1"
      "https://storage.googleapis.com/bkt/bq2clickhouse/run-1/events/*.parquet"
      false _)) _).
    + vm_compute. do 6 apply list_elem_of_further. apply list_elem_of_here.
    + vm_compute. reflexivity.
  - refine (proj1 (proj1 (proj2 (proj2 (proj1 staged_load_steps _
      SpecWorld.handler SpecWorld.gcs_to_http_url SpecWorld.scenario_config
      SpecWorld.collision_world)))
      "events_run_1" [("id", "Int64"); ("name", "String")] None _)).
    vm_compute. do 5 apply list_elem_of_further. apply list_elem_of_here.
  - refine (proj2 staged_load_steps SpecWorld.scenario_config
      SpecWorld.collision_world _ _ _ _).
    exists (SpecWorld.mkTable [("id", "Int64")] None None).
    vm_compute. reflexivity.
  - refine (eq_trans (proj2 (proj2 (proj1 (proj2 (proj2 (proj2 (proj1
      staged_load_steps _
      SpecWorld.handler SpecWorld.gcs_to_http_url SpecWorld.scenario_config
      (SpecWorld.scenario_world SpecWorld.flat_schema SpecWorld.import_raises)))))
      _)) _) _).
    + vm_compute. reflexivity.
    + vm_compute. repeat split.
    + vm_compute. reflexivity.
  - refine (eq_trans (proj1 (proj2 (proj1 (proj2 (proj2 (proj2 (proj1
      staged_load_steps _
      SpecWorld.handler SpecWorld.gcs_to_http_url SpecWorld.scenario_config
      SpecWorld.collision_world))))
      _)) _) _).
    + vm_compute. reflexivity.
    + vm_compute. repeat split.
    + vm_compute. reflexivity.
Defined.




(** C9: a run calls [batch_delete_folder] only as its eleventh call, after
    [drop_table] of the destination and [rename_table] of the temporary
    table have both returned; a run that ends with any other exception has
    not called it.  In the reference world such a run leaves every shard the
    export wrote under the staging path. *)
Theorem cleanup_only_after_swap :
  (∀ W (handler : Handler W) gcs_to_http_url asset_config w,
     let out := materialize handler gcs_to_http_url asset_config w in
     let dest := destination_table_name asset_config in
     let temp := temp_dest dest (sync_id asset_config) in
     (∀ b f o, (BatchDeleteFolder b f, o) ∈ trace out.2 →
        trace out.2 !! 7 = Some (DropTable dest, true)
        ∧ trace out.2 !! 8 = Some (RenameTable temp dest, true)
        ∧ trace out.2 !! 10 = Some (BatchDeleteFolder b f, o)
        ∧ length (trace out.2) = 11)
     ∧ (∀ e, out.1 = inl e →
          (∀ b f, e ≠ CallRaised (BatchDeleteFolder b f)) →
          Forall (λ c, is_batch_delete c = false) (calls_of (trace out.2))))
  ∧ (∀ asset_config w e sh,
       (SpecWorld.run asset_config w).1 = inl e →
       (∀ b f, e ≠ CallRaised (BatchDeleteFolder b f)) →
       (ExportToGcs (source_config asset_config) (gcs_path asset_config), true)
         ∈ trace (SpecWorld.run asset_config w).2 →
       sh ∈ SpecWorld.shards w →
       gcs_path asset_config +:+ "/" +:+ sh
         ∈ SpecWorld.objects_under (gcs_path asset_config)
             (world (SpecWorld.run asset_config w).2)).
Proof.
  split.
  - intros W handler url cfg w out dest temp. subst out dest temp. split.
    + intros b f o Hin.
      destruct (cleanup_call_log handler url cfg w b f o Hin) as (_ & _ & ->).
      unfold run_plan, call_plan. list_reduce. done.
    + intros e. apply failure_without_cleanup.
  - intros cfg w e sh Hres Hne Hexp Hsh.
    apply SpecWorldFacts.staged_objects_remain; [done| |done].
    by eapply failure_without_cleanup.
Qed.

Lemma cleanup_only_after_swap_witness :
  let out := SpecWorld.run SpecWorld.scenario_config
               (SpecWorld.scenario_world SpecWorld.flat_schema SpecWorld.never) in
  let out' := SpecWorld.run SpecWorld.scenario_config
                (SpecWorld.scenario_world SpecWorld.flat_schema
                   SpecWorld.rename_raises) in
  trace out.2 !! 8 = Some (RenameTable "events_run_1" "events", true)
  ∧ "gs://bkt/bq2clickhouse/run-1/events/000000000000.parquet"
      ∈ SpecWorld.objects_under "gs://bkt/bq2clickhouse/run-1/events" (world out'.2).
Proof.
  intros out out'. split.
  - refine (proj1 (proj2 (proj1 (proj1 cleanup_only_after_swap _ SpecWorld.handler
      SpecWorld.gcs_to_http_url SpecWorld.scenario_config
      (SpecWorld.scenario_world SpecWorld.flat_schema SpecWorld.never))
      "bkt" "bq2clickhouse/run-1/events" true _))).
    vm_compute. do 10 apply list_elem_of_further. apply list_elem_of_here.
  - refine (proj2 cleanup_only_after_swap SpecWorld.scenario_config
      (SpecWorld.scenario_world SpecWorld.flat_schema SpecWorld.rename_raises)
      (CallRaised (RenameTable "events_run_1" "events"))
      "000000000000.parquet" eq_refl _ _ _).
    + intros b f. discriminate.
    + vm_compute. apply list_elem_of_further. apply list_elem_of_here.
    + apply list_elem_of_singleton. reflexivity.
Defined.

(** C10: every [create_table] call of a run is given the columns translated
    from the looked-up schema and the configured index, so the destination
    and the temporary table are created from the same columns and index.  In
    the reference world, once the temporary table is created it has those
    columns and that index, as has a destination table the ensure step had
    to create; and once the rename has returned, the destination table is the
    loaded table with those columns and that index. *)
Theorem tables_created_alike :
  (∀ W (handler : Handler W) gcs_to_http_url asset_config w
     t1 c1 i1 b1 o1 t2 c2 i2 b2 o2,
     let out := materialize handler gcs_to_http_url asset_config w in
     (CreateTable t1 c1 i1 b1, o1) ∈ trace out.2 →
     (CreateTable t2 c2 i2 b2, o2) ∈ trace out.2 →
     c1 = c2 ∧ i1 = i2 ∧ i1 = index asset_config
     ∧ translate_fields (answered_schema handler asset_config w) [] = inr c1)
  ∧ (∀ asset_config w,
       let out := SpecWorld.run asset_config w in
       let dest := destination_table_name asset_config in
       let temp := temp_dest dest (sync_id asset_config) in
       let cols := answered_columns SpecWorld.handler asset_config w in
       let glob := answered_glob SpecWorld.handler asset_config w in
       let created :=
         replay SpecWorld.handler w
           (take 6 (run_plan SpecWorld.handler SpecWorld.gcs_to_http_url
                      asset_config w)) in
       ((CreateTable temp cols (index asset_config) false, true) ∈ trace out.2 →
        SpecWorld.tables created !! temp
        = Some (SpecWorld.mkTable cols (index asset_config) None)
        ∧ (SpecWorld.tables w !! dest = None →
           SpecWorld.tables created !! dest
           = Some (SpecWorld.mkTable cols (index asset_config) None)))
       ∧ (∀ a b, (RenameTable a b, true) ∈ trace out.2 →
            SpecWorld.tables (world out.2) !! dest
            = Some (SpecWorld.mkTable cols (index asset_config)
                      (Some (SpecWorld.gcs_to_http_url glob)))
            ∧ SpecWorld.tables (world out.2) !! temp = None)).
Proof.
  split.
  - intros W handler url cfg w t1 c1 i1 b1 o1 t2 c2 i2 b2 o2 out H1 H2.
    destruct (create_table_arguments handler url cfg w _ _ _ _ _ H1)
      as (-> & -> & Htr & _).
    destruct (create_table_arguments handler url cfg w _ _ _ _ _ H2)
      as (-> & -> & _ & _).
    done.
  - intros cfg w out dest temp cols glob created. split.
    + apply SpecWorldFacts.staging_created_state.
    + intros a b Hin.
      destruct (SpecWorldFacts.swap_state cfg w a b Hin) as (? & ? & _). done.
Qed.

Lemma tables_created_alike_witness :
  let w := SpecWorld.scenario_world SpecWorld.flat_schema SpecWorld.never in
  let out := SpecWorld.run SpecWorld.scenario_config w in
  let created :=
    replay SpecWorld.handler w
      (take 6 (run_plan SpecWorld.handler SpecWorld.gcs_to_http_url
                 SpecWorld.scenario_config w)) in
  translate_fields SpecWorld.flat_schema []
  = inr [("id", "Int64"); ("name", "String")]
  ∧ SpecWorld.tables created !! "events"
    = Some (SpecWorld.mkTable [("id", "Int64"); ("name", "String")] None None)
  ∧ SpecWorld.tables created !! "events_run_1"
    = Some (SpecWorld.mkTable [("id", "Int64"); ("name", "String")] None None)
  ∧ SpecWorld.tables (world out.2) !! "events"
    = Some (SpecWorld.mkTable [("id", "Int64"); ("name", "String")] None
              (Some "https://storage.googleapis.com/bkt/bq2clickhouse/run-1/events/*.parquet")).
Proof.
  intros w out created.
  assert ((CreateTable "events_run_1" [("id", "Int64"); ("name", "String")]
             None false, true) ∈ trace out.2) as Hstaging.
  { vm_compute. do 5 apply list_elem_of_further. apply list_elem_of_here. }
  split; [|split; [|split]].
  - refine (proj2 (proj2 (proj2 (proj1 tables_created_alike _ SpecWorld.handler
      SpecWorld.gcs_to_http_url SpecWorld.scenario_config w
      "events" [("id", "Int64"); ("name", "String")] None true true
      "events_run_1" [("id", "Int64"); ("name", "String")] None false true
      _ Hstaging)))).
    vm_compute. do 4 apply list_elem_of_further. apply list_elem_of_here.
  - exact (proj2 (proj1 (proj2 tables_created_alike SpecWorld.scenario_config w)
             Hstaging) eq_refl).
  - exact (proj1 (proj1 (proj2 tables_created_alike SpecWorld.scenario_config w)
             Hstaging)).
  - refine (proj1 (proj2 (proj2 tables_created_alike SpecWorld.scenario_config w)
      "events_run_1" "events" _)).
    vm_compute. do 8 apply list_elem_of_further. apply list_elem_of_here.
Defined.

(** ** More on the temporary table name and the staging folder *)

Lemma temp_dest_cut (d s : string) :
  ∃ cut, temp_dest_full d s = temp_dest d s +:+ cut.
Proof.
  unfold temp_dest.
  destruct (63 <? String.length (temp_dest_full d s)).
  - destruct (slice_to_rest 63 (temp_dest_full d s)) as [rest Hrest].
    destruct (rstrip_rest "_" (PyStr.slice_to 63 (temp_dest_full d s)))
      as [n Hn].
    exists (repeat_char "_" n +:+ rest).
    rewrite <- append_assoc, <- Hn. exact Hrest.
  - exists "". by rewrite append_empty_r.
Qed.

Lemma contains_char_append c a b :
  contains_char c (a +:+ b) = contains_char c a || contains_char c b.
Proof.
  induction a as [|x a IH]; [done|]. rewrite append_cons. cbn.
  rewrite IH. by rewrite orb_assoc.
Qed.

Lemma contains_char_replace old new s :
  old ≠ new → contains_char old (PyStr.replace old new s) = false.
Proof.
  intros Hne. induction s as [|a s IH]; cbn; [done|].
  rewrite IH, orb_false_r.
  destruct (Ascii.eqb_spec a old) as [->|Ha].
  - by apply Ascii.eqb_neq.
  - by apply Ascii.eqb_neq.
Qed.

Lemma contains_char_prefix c a b :
  contains_char c (a +:+ b) = false → contains_char c a = false.
Proof. rewrite contains_char_append. by intros [? ?]%orb_false_elim. Qed.

(** The temporary table name is an initial part of
    [destination_table_name + "_" + sync_id] with dashes turned into
    underscores; a dash of the sync id never reaches it: when the
    destination name has no dash, neither has the temporary name. *)
Theorem temp_dest_shape (d s : string) :
  (∃ cut, temp_dest_full d s = temp_dest d s +:+ cut)
  ∧ (contains_char "-" d = false → contains_char "-" (temp_dest d s) = false).
Proof.
  destruct (temp_dest_cut d s) as [cut Hcut]. split; [by exists cut|].
  intros Hd. apply (contains_char_prefix _ _ cut). rewrite <- Hcut.
  unfold temp_dest_full. rewrite !contains_char_append, Hd.
  by rewrite contains_char_replace.
Qed.

Lemma temp_dest_shape_witness :
  contains_char "-" (temp_dest "events" "2024-01-01-nightly") = false.
Proof.
  apply (proj2 (temp_dest_shape "events" "2024-01-01-nightly")).
  vm_compute. reflexivity.
Defined.

Lemma replace_only_separators s :
  only_separators s = true →
  PyStr.replace "-" "_" s = repeat_char "_" (String.length s).
Proof.
  induction s as [|a s IH]; cbn; [done|].
  intros [Ha Hs]%andb_prop. rewrite (IH Hs). f_equal.
  destruct (Ascii.eqb_spec a "-") as [->|Hdash]; [done|].
  cbn in Ha. by apply Ascii.eqb_eq in Ha.
Qed.

Lemma slice_to_append n (a b : string) :
  String.length a ≤ n →
  PyStr.slice_to n (a +:+ b) = a +:+ PyStr.slice_to (n - String.length a) b.
Proof.
  revert n. induction a as [|x a IH]; intros n Hn.
  - cbn. by rewrite Nat.sub_0_r.
  - cbn in Hn. destruct n as [|n]; [lia|].
    rewrite !append_cons. cbn. f_equal. apply IH. lia.
Qed.

Lemma slice_to_repeat n c m :
  PyStr.slice_to n (repeat_char c m) = repeat_char c (n `min` m).
Proof.
  revert m. induction n as [|n IH]; intros [|m]; cbn; try done.
  by rewrite IH.
Qed.

Lemma rstrip_repeat c n : PyStr.rstrip c (repeat_char c n) = "".
Proof.
  induction n as [|n IH]; cbn; [done|]. rewrite IH. by rewrite Ascii.eqb_refl.
Qed.

Lemma rstrip_append_repeat c (a : string) n :
  PyStr.rstrip c (a +:+ repeat_char c n) = PyStr.rstrip c a.
Proof.
  induction a as [|x a IH]; [apply rstrip_repeat|].
  rewrite append_cons. cbn. by rewrite IH.
Qed.

Lemma rstrip_id c s : PyStr.ends_with c s = false → PyStr.rstrip c s = s.
Proof.
  induction s as [|a s IH]; cbn; [done|].
  destruct s as [|b s].
  - cbn. by intros ->.
  - intros Hend. rewrite (IH Hend). done.
Qed.

(** A sync id of dashes and underscores only, long enough for the full name
    to pass 63 characters, gives the destination name itself (less its
    trailing underscores) as temporary table name. *)
Theorem temp_dest_can_be_destination (d s : string) :
  only_separators s = true →
  String.length d ≤ 63 →
  63 < String.length (temp_dest_full d s) →
  temp_dest d s = PyStr.rstrip "_" d
  ∧ (PyStr.ends_with "_" d = false → temp_dest d s = d).
Proof.
  intros Hs Hd Hlong.
  assert (temp_dest d s = PyStr.rstrip "_" d) as Heq.
  { rewrite temp_dest_long by done. unfold temp_dest_full.
    rewrite (replace_only_separators _ Hs).
    change ("_" +:+ repeat_char "_" (String.length s))
      with (repeat_char "_" (S (String.length s))).
    rewrite slice_to_append by done.
    by rewrite slice_to_repeat, rstrip_append_repeat. }
  split; [done|]. intros Hend. by rewrite Heq, rstrip_id.
Qed.

Lemma temp_dest_can_be_destination_witness :
  temp_dest "events"
    "----------------------------------------------------------------"
  = "events".
Proof.
  apply temp_dest_can_be_destination.
  - vm_compute. reflexivity.
  - vm_compute. lia.
  - vm_compute. lia.
  - vm_compute. reflexivity.
Defined.

Lemma append_inj_l (a b x : string) : a +:+ x = b +:+ x → a = b.
Proof.
  revert b. induction a as [|c a IH]; intros [|c' b] H.
  - done.
  - apply (f_equal String.length) in H.
    rewrite !length_append in H. cbn in H. lia.
  - apply (f_equal String.length) in H.
    rewrite !length_append in H. cbn in H. lia.
  - rewrite !append_cons in H. injection H as -> H. f_equal. by apply IH.
Qed.

(** For one destination table, two runs with different sync ids never share
    a staging folder, nor, in one bucket, a staging path. *)
Theorem staging_folder_per_sync_id (c1 c2 : Bq2ClickhouseAssetConfig) :
  destination_table_name c1 = destination_table_name c2 →
  sync_id c1 ≠ sync_id c2 →
  gcs_relative_dir c1 ≠ gcs_relative_dir c2
  ∧ (staging_bucket c1 = staging_bucket c2 → gcs_path c1 ≠ gcs_path c2).
Proof.
  intros Hd Hs.
  assert (gcs_relative_dir c1 ≠ gcs_relative_dir c2) as Hdir.
  { unfold gcs_relative_dir. rewrite Hd. intros H.
    apply append_inj_r, append_inj_r in H.
    by apply append_inj_l in H. }
  split; [done|]. unfold gcs_path. intros -> H.
  by apply append_inj_r, append_inj_r, append_inj_r in H.
Qed.

Lemma staging_folder_per_sync_id_witness :
  gcs_path SpecWorld.scenario_config
  ≠ gcs_path {| asset_name := "events";
                sync_id := "run_1";
                source_config := mkBQ "proj" "ds" "events";
                staging_bucket := "bkt";
                destination_table_name := "events";
                index := None;
                copy_mode := OVERWRITE |}.
Proof.
  refine (proj2 (staging_folder_per_sync_id SpecWorld.scenario_config _ _ _) _).
  - reflexivity.
  - vm_compute. discriminate.
  - reflexivity.
Defined.

(** ** More on the calls and the effects of a run *)

(** Whatever the outside world answers, a run names nothing but its own
    source table, staging path and folder, destination table and temporary
    table; the folder it deletes is the path it exported to. *)
Theorem run_stays_within_job {W} (handler : Handler W)
    (gcs_to_http_url : string → string)
    (asset_config : Bq2ClickhouseAssetConfig) (w : W) :
  Forall (within_job asset_config)
    (calls_of (trace (materialize handler gcs_to_http_url asset_config w).2)).
Proof.
  destruct (log_is_plan_prefix handler gcs_to_http_url asset_config w)
    as (k & _ & -> & _).
  apply Forall_take. unfold run_plan, call_plan.
  repeat apply Forall_cons_2; try apply Forall_nil; cbn; auto.
Qed.

Lemma rename_failure_log {W} (handler : Handler W) gcs_to_http_url
    asset_config w a b :
  (RenameTable a b, false)
    ∈ trace (materialize handler gcs_to_http_url asset_config w).2 →
  a = temp_dest (destination_table_name asset_config) (sync_id asset_config)
  ∧ b = destination_table_name asset_config
  ∧ (materialize handler gcs_to_http_url asset_config w).1
    = inl (CallRaised (RenameTable a b))
  ∧ trace (materialize handler gcs_to_http_url asset_config w).2
    = returned (take 8 (run_plan handler gcs_to_http_url asset_config w))
      ++ [(RenameTable a b, false)]
  ∧ world (materialize handler gcs_to_http_url asset_config w).2
    = replay handler w
        (take 9 (run_plan handler gcs_to_http_url asset_config w)).
Proof.
  run_cases handler gcs_to_http_url asset_config w.
  all: rewrite Hworld, Hres, Hlog; intros Hin; in_log Hin.
  injection Hin as -> ->. done.
Qed.

Lemma staging_not_created_log {W} (handler : Handler W) gcs_to_http_url
    asset_config w :
  (∀ t c i, (CreateTable t c i false, true)
              ∉ trace (materialize handler gcs_to_http_url asset_config w).2) →
  (∀ res, (materialize handler gcs_to_http_url asset_config w).1 ≠ inr res)
  ∧ Forall (λ c, match c with
                 | ImportData _ _ | DropTable _ | RenameTable _ _
                 | BatchDeleteFolder _ _ => False
                 | _ => True
                 end)
      (calls_of (trace (materialize handler gcs_to_http_url asset_config w).2)).
Proof.
  run_cases handler gcs_to_http_url asset_config w.
  all: rewrite Hres, Hlog; intros Hnot.
  all: try (exfalso; eapply Hnot;
            do 5 apply list_elem_of_further; apply list_elem_of_here).
  all: split; [done|]; list_reduce; repeat constructor.
Qed.

Module SpecWorldMore.
Import SpecWorld SpecWorldFacts.

Lemma handler_objects_frame w c :
  is_batch_delete c = false →
  (∀ source path, c ≠ ExportToGcs source path) →
  objects (handler w c).2 = objects w.
Proof.
  intros Hc Hexp. unfold handler. destruct (raises w c); [done|].
  destruct c; cbn; try done.
  - exfalso. by eapply Hexp.
  - destruct (tables w !! table); [destruct if_not_exists|]; done.
  - destruct (tables w !! table); done.
  - destruct (tables w !! table); done.
  - destruct (tables w !! from_name); [destruct (tables w !! to_name)|]; done.
Qed.

Lemma export_returns w source path :
  is_return (handler w (ExportToGcs source path)).1 = true →
  objects (handler w (ExportToGcs source path)).2
  = objects w ∪ list_to_set ((λ sh, path +:+ "/" +:+ sh) <$> shards w).
Proof. unfold handler. by destruct (raises w _). Qed.

Lemma batch_delete_returns w bucket folder :
  is_return (handler w (BatchDeleteFolder bucket folder)).1 = true →
  objects (handler w (BatchDeleteFolder bucket folder)).2
  = filter (λ o, under (folder_prefix bucket folder) o = false) (objects w).
Proof. unfold handler. by destruct (raises w _). Qed.

Ltac object_steps :=
  repeat match reverse goal with
  | E : ?w' = (handler ?w ?c).2, R : is_return (handler ?w ?c).1 = false |- _ =>
      rewrite (handler_raise_frame w c R) in E; subst w'
  | E : ?w' = (handler ?w ?c).2, R : is_return (handler ?w ?c).1 = true |- _ =>
      let T := fresh "O" in
      first
        [ pose proof (export_returns w _ _ R) as T
        | pose proof (batch_delete_returns w _ _ R) as T
        | pose proof (handler_objects_frame w c eq_refl
                        ltac:(intros ? ?; discriminate)) as T ];
      pose proof (handler_shards w c) as ?;
      rewrite <- E in *; clear E
  end.

Section MoreStates.
Variable asset_config : Bq2ClickhouseAssetConfig.
Variable w : World.

Local Abbreviation out := (run asset_config w).
Local Abbreviation plan := (run_plan handler gcs_to_http_url asset_config w).
Local Abbreviation dest := (destination_table_name asset_config).
Local Abbreviation temp :=
  (temp_dest (destination_table_name asset_config) (sync_id asset_config)).
Local Abbreviation cols := (answered_columns handler asset_config w).
Local Abbreviation glob := (answered_glob handler asset_config w).

Lemma rename_failure_state a b :
  (RenameTable a b, false) ∈ trace out.2 →
  tables (world out.2) !! dest = None
  ∧ tables (world out.2) !! temp
    = Some (mkTable cols (index asset_config) (Some (gcs_to_http_url glob))).
Proof.
  intros Hin. pose proof (run_agrees asset_config w) as Hagree.
  destruct (rename_failure_log handler gcs_to_http_url asset_config w a b Hin)
    as (-> & -> & _ & Hlog & Hworld).
  unfold run in *. rewrite Hworld. rewrite Hlog in Hagree. clear Hworld Hlog.
  unfold run_plan, call_plan in *.
  cbn [take returned fmap list_fmap app agrees replay] in *.
  walk Hagree. table_steps.
  destruct T3 as [T3 _]. destruct T4 as [T4 Hnew]. specialize (Hnew eq_refl).
  destruct T5 as (tb & Htb & T5).
  rewrite Hnew in T4. rewrite T2, T1, T0, T in T3.
  assert (temp ≠ dest) as Hne.
  { intros Heq. rewrite Heq, T3 in Hnew.
    destruct (tables w !! dest) eqn:Hd; [congruence|].
    by rewrite lookup_insert_eq in Hnew. }
  rewrite T4, lookup_insert_eq in Htb. injection Htb as <-. cbn in T5.
  rewrite T6. split.
  - by rewrite lookup_delete_eq.
  - by rewrite lookup_delete_ne, T5, lookup_insert_eq.
Qed.

Lemma success_objects res o :
  out.1 = inr res →
  o ∈ objects (world out.2)
  ↔ o ∈ objects w ∧ under (gcs_path asset_config) o = false.
Proof.
  intros Hres. pose proof (run_agrees asset_config w) as Hagree.
  destruct (result_log handler gcs_to_http_url asset_config w res Hres)
    as (_ & Hlog).
  destruct (materialize_outcome handler gcs_to_http_url asset_config w _ eq_refl)
    as (Hworld & _ & _).
  unfold run in *. rewrite Hworld. rewrite Hlog in Hagree. rewrite Hlog.
  clear Hworld Hlog Hres.
  unfold run_plan, call_plan in *.
  cbn [take returned fmap list_fmap app agrees replay calls_of fst] in *.
  walk Hagree. object_steps.
  rewrite O9, elem_of_filter, O8, O7, O6, O5, O4, O3, O2, O1, O0, O, H,
    elem_of_union, elem_of_list_to_set, list_elem_of_fmap.
  change (folder_prefix (staging_bucket asset_config)
            (gcs_relative_dir asset_config)) with (gcs_path asset_config).
  split.
  - intros [Hu [Ho|(sh & -> & _)]]; [done|].
    by rewrite under_append in Hu.
  - intros [Ho Hu]. split; [done|]. by left.
Qed.

Lemma destination_as_staging_log :
  temp = dest →
  ∀ t c i, (CreateTable t c i false, true) ∉ trace out.2.
Proof.
  intros Heq t c i Hin. pose proof (run_agrees asset_config w) as Hagree.
  destruct (staging_created_log handler gcs_to_http_url asset_config w _ _ _ Hin)
    as (rest & Hlog).
  unfold run in *. rewrite Hlog in Hagree. apply agrees_app in Hagree.
  clear Hlog Hin.
  unfold run_plan, call_plan in *.
  cbn [take returned fmap list_fmap app agrees] in *.
  walk Hagree. table_steps.
  destruct T3 as [T3 _]. destruct T4 as [_ Hnew]. specialize (Hnew eq_refl).
  rewrite T2, T1, T0, T in T3. rewrite Heq, T3 in Hnew.
  destruct (tables w !! dest) eqn:Hd; [congruence|].
  by rewrite lookup_insert_eq in Hnew.
Qed.

End MoreStates.
End SpecWorldMore.

(** A rename that raises after the drop has returned ends the run with the
    exception of the rename, and the cleanup is not called.  In the
    reference world the destination name then names no table, while the
    temporary table holds the loaded data and the exported shards are still
    under the staging path. *)
Theorem swap_window_failure :
  (∀ W (handler : Handler W) gcs_to_http_url asset_config w a b,
     let out := materialize handler gcs_to_http_url asset_config w in
     (RenameTable a b, false) ∈ trace out.2 →
     out.1 = inl (CallRaised (RenameTable a b))
     ∧ trace out.2 !! 7
       = Some (DropTable (destination_table_name asset_config), true)
     ∧ trace out.2 !! 8 = Some (RenameTable a b, false)
     ∧ Forall (λ c, is_batch_delete c = false) (calls_of (trace out.2)))
  ∧ (∀ asset_config w a b,
       let out := SpecWorld.run asset_config w in
       let dest := destination_table_name asset_config in
       let temp := temp_dest dest (sync_id asset_config) in
       (RenameTable a b, false) ∈ trace out.2 →
       SpecWorld.tables (world out.2) !! dest = None
       ∧ SpecWorld.tables (world out.2) !! temp
         = Some (SpecWorld.mkTable
                   (answered_columns SpecWorld.handler asset_config w)
                   (index asset_config)
                   (Some (SpecWorld.gcs_to_http_url
                            (answered_glob SpecWorld.handler asset_config w))))
       ∧ (∀ sh, sh ∈ SpecWorld.shards w →
            gcs_path asset_config +:+ "/" +:+ sh
              ∈ SpecWorld.objects_under (gcs_path asset_config) (world out.2))).
Proof.
  assert (∀ W (handler : Handler W) url cfg w a b,
     (RenameTable a b, false) ∈ trace (materialize handler url cfg w).2 →
     (ExportToGcs (source_config cfg) (gcs_path cfg), true)
       ∈ trace (materialize handler url cfg w).2
     ∧ trace (materialize handler url cfg w).2 !! 7
       = Some (DropTable (destination_table_name cfg), true)
     ∧ trace (materialize handler url cfg w).2 !! 8 = Some (RenameTable a b, false)
     ∧ Forall (λ c, is_batch_delete c = false)
         (calls_of (trace (materialize handler url cfg w).2))) as Hlog.
  { intros W handler url cfg w a b Hin.
    destruct (rename_failure_log handler url cfg w a b Hin)
      as (_ & _ & _ & -> & _).
    unfold run_plan, call_plan. list_reduce. split; [set_solver|].
    split; [done|]. split; [done|]. repeat constructor. }
  split.
  - intros W handler url cfg w a b out Hin. subst out. split.
    + by destruct (rename_failure_log handler url cfg w a b Hin)
        as (_ & _ & -> & _).
    + by destruct (Hlog _ handler url cfg w a b Hin) as (_ & ? & ? & ?).
  - intros cfg w a b out dest temp Hin. subst out dest temp.
    destruct (SpecWorldMore.rename_failure_state cfg w a b Hin) as [Hd Ht].
    split; [done|]. split; [done|]. intros sh Hsh.
    destruct (Hlog _ _ _ _ _ a b Hin) as (Hexp & _ & _ & Hkeep).
    by apply SpecWorldFacts.staged_objects_remain.
Qed.

Lemma swap_window_failure_witness :
  let out := SpecWorld.run SpecWorld.scenario_config
               (SpecWorld.scenario_world SpecWorld.flat_schema
                  SpecWorld.rename_raises) in
  out.1 = inl (CallRaised (RenameTable "events_run_1" "events"))
  ∧ SpecWorld.tables (world out.2) !! "events" = None.
Proof.
  intros out.
  assert ((RenameTable "events_run_1" "events", false) ∈ trace out.2) as Hin.
  { vm_compute. do 8 apply list_elem_of_further. apply list_elem_of_here. }
  split.
  - exact (proj1 (proj1 swap_window_failure _ _ _ _ _ _ _ Hin)).
  - exact (proj1 (proj2 swap_window_failure _ _ _ _ Hin)).
Defined.

(** In the reference world a run that returns a result leaves the bucket
    with exactly the objects it had outside the staging path, so nothing
    remains under that path, and leaves every table other than the
    destination and the temporary one as it was. *)
Theorem success_leaves_clean_state (asset_config : Bq2ClickhouseAssetConfig)
    (w : SpecWorld.World) (res : MaterializeResult) :
  let out := SpecWorld.run asset_config w in
  let dest := destination_table_name asset_config in
  let temp := temp_dest dest (sync_id asset_config) in
  out.1 = inr res →
  (∀ o, o ∈ SpecWorld.objects (world out.2)
        ↔ o ∈ SpecWorld.objects w
          ∧ SpecWorld.under (gcs_path asset_config) o = false)
  ∧ SpecWorld.objects_under (gcs_path asset_config) (world out.2) = ∅
  ∧ (∀ t, t ≠ dest → t ≠ temp →
       SpecWorld.tables (world out.2) !! t = SpecWorld.tables w !! t).
Proof.
  intros out dest temp Hres.
  assert (∀ o, o ∈ SpecWorld.objects (world out.2)
        ↔ o ∈ SpecWorld.objects w
          ∧ SpecWorld.under (gcs_path asset_config) o = false) as Hobj.
  { intros o. by eapply SpecWorldMore.success_objects. }
  split; [done|]. split.
  - apply set_eq. intros o. unfold SpecWorld.objects_under.
    rewrite elem_of_filter, Hobj, elem_of_empty.
    split; [|done]. intros [Hin [_ Hout]]. congruence.
  - destruct (result_log SpecWorld.handler SpecWorld.gcs_to_http_url
                asset_config w res Hres) as (_ & Hlog).
    refine (proj2 (proj2 (SpecWorldFacts.swap_state asset_config w temp dest _))).
    unfold SpecWorld.run. rewrite Hlog. unfold run_plan, call_plan.
    list_reduce. do 8 apply list_elem_of_further. apply list_elem_of_here.
Qed.

Lemma success_leaves_clean_state_witness :
  let out := SpecWorld.run SpecWorld.scenario_config
               (SpecWorld.scenario_world SpecWorld.flat_schema SpecWorld.never) in
  SpecWorld.objects_under (gcs_path SpecWorld.scenario_config) (world out.2) = ∅.
Proof.
  intros out.
  exact (proj1 (proj2 (success_leaves_clean_state SpecWorld.scenario_config
    (SpecWorld.scenario_world SpecWorld.flat_schema SpecWorld.never) _ eq_refl))).
Defined.

(** When the temporary table name is the destination name itself, the
    reference world refuses the second [create_table]: the run imports,
    drops, renames and deletes nothing, and returns no result. *)
Theorem destination_as_staging_never_swaps
    (asset_config : Bq2ClickhouseAssetConfig) (w : SpecWorld.World) :
  let out := SpecWorld.run asset_config w in
  temp_dest (destination_table_name asset_config) (sync_id asset_config)
  = destination_table_name asset_config →
  (∀ res, out.1 ≠ inr res)
  ∧ Forall (λ c, match c with
                 | ImportData _ _ | DropTable _ | RenameTable _ _
                 | BatchDeleteFolder _ _ => False
                 | _ => True
                 end)
      (calls_of (trace out.2)).
Proof.
  intros out Heq. apply staging_not_created_log.
  by apply SpecWorldMore.destination_as_staging_log.
Qed.

Lemma destination_as_staging_never_swaps_witness :
  let cfg := {| asset_name := "events";
                sync_id :=
                  "----------------------------------------------------------------";
                source_config := mkBQ "proj" "ds" "events";
                staging_bucket := "bkt";
                destination_table_name := "events";
                index := None;
                copy_mode := OVERWRITE |} in
  Forall (λ c, match c with
               | ImportData _ _ | DropTable _ | RenameTable _ _
               | BatchDeleteFolder _ _ => False
               | _ => True
               end)
    (calls_of (trace (SpecWorld.run cfg
       (SpecWorld.scenario_world SpecWorld.flat_schema SpecWorld.never)).2)).
Proof.
  intros cfg.
  refine (proj2 (destination_as_staging_never_swaps cfg
    (SpecWorld.scenario_world SpecWorld.flat_schema SpecWorld.never) _)).
  vm_compute. reflexivity.
Defined.

(** ** dbt profile targets *)

Module DbtFacts.
Import Dbt.

Lemma lookup_asdict self k :
  asdict self !! k
  = if decide (k = "job_execution_time_seconds")
    then Some (VInt (job_execution_time_seconds self))
    else if decide (k = "job_retries") then Some (VInt (job_retries self))
    else if decide (k = "location") then Some (VStr (location self))
    else if decide (k = "method") then Some (VStr (method self))
    else if decide (k = "keyfile") then Some (VStr (keyfile self))
    else if decide (k = "impersonate_service_account")
    then Some (VStr (impersonate_service_account self))
    else if decide (k = "threads") then Some (VInt (threads self))
    else None.
Proof.
  unfold asdict. cbn [list_to_map foldr uncurry fst snd].
  rewrite !lookup_insert, lookup_empty.
  repeat (case_decide; [subst; repeat case_decide; try done|]).
  repeat case_decide; try done; congruence.
Qed.

Ltac dict_lookup :=
  rewrite ?lookup_delete, ?lookup_insert, ?lookup_asdict;
  repeat (case_decide; try congruence).

Lemma as_dict_lookups (self : BQTargetConfigTemplate) :
  let output := as_dict self in
  output !! "type" = Some (VStr "bigquery")
  ∧ output !! "job_execution_time_seconds"
    = Some (VInt (job_execution_time_seconds self))
  ∧ output !! "job_retries" = Some (VInt (job_retries self))
  ∧ output !! "location" = Some (VStr (location self))
  ∧ output !! "method" = Some (VStr (method self))
  ∧ output !! "threads" = Some (VInt (threads self))
  ∧ output !! "keyfile"
    = (if String.eqb (method self) "oauth" then None
       else Some (VStr (keyfile self)))
  ∧ output !! "impersonate_service_account"
    = (if String.eqb (method self) "oauth"
          && negb (String.eqb (impersonate_service_account self) "")
       then Some (VStr (impersonate_service_account self))
       else None)
  ∧ (∀ k, is_Some (output !! k) →
       k ∈ ["type"; "job_execution_time_seconds"; "job_retries"; "location";
            "method"; "threads"; "keyfile"; "impersonate_service_account"]).
Proof.
  intros output. subst output. unfold as_dict.
  destruct (String.eqb (method self) "oauth");
    [destruct (String.eqb (impersonate_service_account self) "")|];
    cbn [andb negb].
  all: repeat split; try (dict_lookup; fail).
  all: intros k [v Hk]; revert Hk; dict_lookup; subst; intros _;
    repeat first [apply list_elem_of_here | apply list_elem_of_further].
Qed.

(** The keys of a profile target made from a template: the five settings
    and ["type": "bigquery"] always; ["keyfile"] exactly when the method is
    not oauth; ["impersonate_service_account"] exactly when the method is
    oauth and the account is not empty; nothing else. *)
Theorem as_dict_keys (self : BQTargetConfigTemplate) :
  let output := as_dict self in
  output !! "type" = Some (VStr "bigquery")
  ∧ output !! "job_execution_time_seconds"
    = Some (VInt (job_execution_time_seconds self))
  ∧ output !! "job_retries" = Some (VInt (job_retries self))
  ∧ output !! "location" = Some (VStr (location self))
  ∧ output !! "method" = Some (VStr (method self))
  ∧ output !! "threads" = Some (VInt (threads self))
  ∧ output !! "keyfile"
    = (if String.eqb (method self) "oauth" then None
       else Some (VStr (keyfile self)))
  ∧ output !! "impersonate_service_account"
    = (if String.eqb (method self) "oauth"
          && negb (String.eqb (impersonate_service_account self) "")
       then Some (VStr (impersonate_service_account self))
       else None)
  ∧ (∀ k, is_Some (output !! k) →
       k ∈ ["type"; "job_execution_time_seconds"; "job_retries"; "location";
            "method"; "threads"; "keyfile"; "impersonate_service_account"]).
Proof. apply as_dict_lookups. Qed.

Lemma as_dict_keys_witness :
  "keyfile" ∈ ["type"; "job_execution_time_seconds"; "job_retries"; "location";
               "method"; "threads"; "keyfile"; "impersonate_service_account"].
Proof.
  refine (proj2 (proj2 (proj2 (proj2 (proj2 (proj2 (proj2 (proj2
    (as_dict_keys (mkTemplate 3600 3 "US" "service-account" "/key.json" "" 32)))))))))
    "keyfile" _).
  exists (VStr "/key.json"). vm_compute. reflexivity.
Defined.

Lemma foldl_add_target project_id template targets acc name :
  foldl (add_target project_id template) acc targets !! name
  = match dataset_of name targets with
    | Some d => Some (target_for project_id template d)
    | None => acc !! name
    end.
Proof.
  revert acc. induction targets as [|[n d] rest IH]; intros acc; [done|].
  cbn [foldl dataset_of]. rewrite IH.
  destruct (dataset_of name rest); [done|].
  unfold add_target. rewrite lookup_insert. by case_decide.
Qed.

Lemma dataset_of_Some name targets d :
  dataset_of name targets = Some d → (name, d) ∈ targets.
Proof.
  induction targets as [|[n d'] rest IH]; cbn; [done|].
  destruct (dataset_of name rest) as [d''|].
  - intros [= <-]. right. by apply IH.
  - case_decide; [|done]. intros [= <-]. subst. left.
Qed.

Lemma dataset_of_None name targets :
  dataset_of name targets = None ↔ name ∉ targets.*1.
Proof.
  induction targets as [|[n d'] rest IH].
  { split; [intros _; apply not_elem_of_nil|done]. }
  rewrite fmap_cons, not_elem_of_cons. cbn [dataset_of fst].
  destruct (dataset_of name rest) as [d''|].
  - split; [done|]. intros [_ Hrest]. by apply IH in Hrest.
  - case_decide; split; try done.
    + intros [Hne _]. congruence.
    + intros _. split; [congruence|]. by apply IH.
Qed.

Lemma targets_dict_dataset (project_id : string)
    (targets : list (string * string)) (template : BQTargetConfigTemplate)
    (name : string) :
  targets_dict project_id targets template !! name
  = target_for project_id template <$> dataset_of name targets.
Proof.
  unfold targets_dict. rewrite foldl_add_target, lookup_empty.
  by destruct (dataset_of name targets).
Qed.

(** The outputs of a generated profile: a target name has an output exactly
    when it is among the targets, and its output is the template's target
    with the project and the dataset of the last pair of that name. *)
Theorem targets_dict_lookup (project_id : string)
    (targets : list (string * string)) (template : BQTargetConfigTemplate)
    (name : string) :
  targets_dict project_id targets template !! name
  = target_for project_id template <$> dataset_of name targets
  ∧ (is_Some (targets_dict project_id targets template !! name)
     ↔ name ∈ targets.*1)
  ∧ (∀ before d after,
       targets = before ++ (name, d) :: after → name ∉ after.*1 →
       targets_dict project_id targets template !! name
       = Some (target_for project_id template d)).
Proof.
  pose proof (targets_dict_dataset project_id targets template name) as Heq.
  split; [done|]. split.
  - rewrite Heq, fmap_is_Some.
    destruct (dataset_of name targets) as [d|] eqn:Hd.
    + split; [|by eauto]. intros _. apply dataset_of_Some in Hd.
      apply list_elem_of_fmap. by exists (name, d).
    + apply dataset_of_None in Hd. split; [by intros [? ?]|done].
  - intros before d after -> Hafter. rewrite Heq.
    apply dataset_of_None in Hafter.
    assert (dataset_of name (before ++ (name, d) :: after) = Some d) as ->; [|done].
    clear Heq. induction before as [|[n d'] before IH]; cbn.
    + rewrite Hafter. by case_decide.
    + by rewrite IH.
Qed.

Lemma targets_dict_lookup_witness :
  targets_dict "proj" [("prod", "old"); ("dev", "playground"); ("prod", "oso")]
    default_template !! "prod"
  = Some (target_for "proj" default_template "oso").
Proof.
  refine (proj2 (proj2 (targets_dict_lookup "proj" _ default_template "prod"))
            [("prod", "old"); ("dev", "playground")] "oso" [] eq_refl _).
  apply not_elem_of_nil.
Defined.

(** Every output of a generated profile names the project, is of type
    bigquery, names a dataset given for its target, and otherwise carries
    the template's settings. *)
Theorem targets_dict_output (project_id : string)
    (targets : list (string * string)) (template : BQTargetConfigTemplate)
    (name : string) (output : gmap string Value) :
  targets_dict project_id targets template !! name = Some output →
  output !! "project" = Some (VStr project_id)
  ∧ output !! "type" = Some (VStr "bigquery")
  ∧ (∃ d, (name, d) ∈ targets ∧ output !! "dataset" = Some (VStr d))
  ∧ (∀ k, k ≠ "project" → k ≠ "dataset" → output !! k = as_dict template !! k).
Proof.
  rewrite targets_dict_dataset.
  destruct (dataset_of name targets) as [d|] eqn:Hd; [|done].
  intros [= <-]. unfold target_for. split; [|split; [|split]].
  - by rewrite lookup_insert_ne, lookup_insert_eq.
  - rewrite !lookup_insert_ne by done. apply as_dict_lookups.
  - exists d. split; [by apply dataset_of_Some|]. by rewrite lookup_insert_eq.
  - intros k Hp Hds. by rewrite !lookup_insert_ne.
Qed.

Lemma targets_dict_output_witness :
  target_for "proj" default_template "oso" !! "type" = Some (VStr "bigquery").
Proof.
  refine (proj1 (proj2 (targets_dict_output "proj"
    [("prod", "old"); ("dev", "playground"); ("prod", "oso")]
    default_template "prod" _ _))).
  vm_compute. reflexivity.
Defined.

End DbtFacts.

(** ** Paths *)

Module PosixPathFacts.
Import PosixPath.

Lemma head_of_no_sep f : contains_char "/" f = false → head_of f = "".
Proof.
  induction f as [|c f IH]; cbn; [done|].
  intros [Hc Hf]%orb_false_elim. by rewrite (IH Hf), Hc.
Qed.

Lemma head_of_append_no_sep (a f : string) :
  contains_char "/" f = false → head_of (a +:+ f) = head_of a.
Proof.
  intros Hf. induction a as [|c a IH].
  - by apply head_of_no_sep.
  - rewrite append_cons. cbn. by rewrite IH.
Qed.

Lemma head_of_ends_with_sep (a : string) :
  PyStr.ends_with "/" a = true → head_of a = a.
Proof.
  induction a as [|c a IH]; cbn; [done|].
  destruct a as [|d a].
  - cbn. by intros ->.
  - intros Hend. by rewrite (IH Hend).
Qed.

Lemma ends_with_append_char (a : string) c :
  PyStr.ends_with c (a +:+ String c "") = true.
Proof.
  induction a as [|x a IH]; [cbn; apply Ascii.eqb_refl|].
  rewrite append_cons. cbn. destruct (a +:+ String c "") eqn:E; [|done].
  by destruct a.
Qed.

Lemma truthy_rstrip_not_ending c (a : string) :
  PyStr.truthy a = true → PyStr.ends_with c a = false →
  PyStr.truthy (PyStr.rstrip c a) = true.
Proof. intros Ha Hend. by rewrite rstrip_id. Qed.

(** Taking the directory of a file name joined to a directory gives the
    directory back, less its trailing slashes; a directory that is empty or
    made of slashes only comes back as it is. *)
Theorem dirname_join (d f : string) :
  contains_char "/" f = false →
  dirname (join d [f])
  = if PyStr.truthy (PyStr.rstrip "/" d) then PyStr.rstrip "/" d else d.
Proof.
  intros Hf. unfold join, join_step. cbn [foldl].
  assert (starts_with_sep f = false) as ->.
  { destruct f as [|c f]; [done|]. cbn in *. by apply orb_false_elim in Hf as [? _]. }
  unfold dirname. destruct d as [|c d].
  - cbn [PyStr.truthy negb orb]. change ("" +:+ f) with f.
    by rewrite head_of_no_sep.
  - cbn [PyStr.truthy negb orb].
    destruct (PyStr.ends_with "/" (String c d)) eqn:Hend.
    + rewrite head_of_append_no_sep, head_of_ends_with_sep by done.
      cbn [PyStr.truthy andb]. done.
    + rewrite <- append_assoc, head_of_append_no_sep by done.
      rewrite head_of_ends_with_sep by apply ends_with_append_char.
      change (String c d +:+ "/") with (String c d +:+ repeat_char "/" 1).
      rewrite rstrip_append_repeat, rstrip_id by done.
      by rewrite append_cons.
Qed.

Lemma dirname_join_witness :
  dirname (join "/home/oso/.dbt/" ["profiles.yml"]) = "/home/oso/.dbt".
Proof.
  refine (eq_trans (dirname_join "/home/oso/.dbt/" "profiles.yml" _) _).
  - vm_compute. reflexivity.
  - vm_compute. reflexivity.
Defined.

Lemma join_step_suffix path b : ∃ before, join_step path b = before +:+ b.
Proof.
  unfold join_step. destruct (starts_with_sep b); [by exists ""|].
  destruct (negb (PyStr.truthy path) || PyStr.ends_with "/" path).
  - by exists path.
  - exists (path +:+ "/"). by rewrite append_assoc.
Qed.

Lemma join_step_prefix path b :
  starts_with_sep b = false → ∃ rest, join_step path b = path +:+ rest.
Proof.
  intros Hb. unfold join_step. rewrite Hb.
  destruct (negb (PyStr.truthy path) || PyStr.ends_with "/" path); eauto.
Qed.

(** The manifest path of a target: it always ends in [manifest.json]; a
    target that does not start with a slash keeps it under the base
    directory, one that does makes the base directory drop out. *)
Theorem manifest_path_shape (base target : string) :
  (∃ before, join base [target; "manifest.json"] = before +:+ "manifest.json")
  ∧ (starts_with_sep target = false →
     ∃ rest, join base [target; "manifest.json"] = base +:+ rest)
  ∧ (starts_with_sep target = true →
     join base [target; "manifest.json"] = join target ["manifest.json"]).
Proof.
  unfold join. cbn [foldl]. split; [|split].
  - apply join_step_suffix.
  - intros Ht. destruct (join_step_prefix base target Ht) as [r1 ->].
    destruct (join_step_prefix (base +:+ r1) "manifest.json" eq_refl) as [r2 ->].
    exists (r1 +:+ r2). by rewrite append_assoc.
  - intros Ht. unfold join_step at 2. by rewrite Ht.
Qed.

Lemma manifest_path_shape_witness :
  join "target" ["/tmp/elsewhere"; "manifest.json"]
  = "/tmp/elsewhere/manifest.json"
  ∧ ∃ rest, join "target" ["prod"; "manifest.json"] = "target" +:+ rest.
Proof.
  split.
  - refine (eq_trans (proj2 (proj2 (manifest_path_shape "target" "/tmp/elsewhere"))
                        eq_refl) _).
    vm_compute. reflexivity.
  - exact (proj1 (proj2 (manifest_path_shape "target" "prod")) eq_refl).
Defined.

End PosixPathFacts.

(** ** Writing the profile and loading the manifests *)

Module DbtRuns.
Import Dbt.

Lemma join_manifests_foldl base (targets : list (string * string))
    (acc : gmap string ManifestPath) name :
  foldl (λ manifests '(target, _),
           <[target := PathStr (PosixPath.join base [target; "manifest.json"])]>
             manifests) acc targets !! name
  = if decide (name ∈ targets.*1)
    then Some (PathStr (PosixPath.join base [name; "manifest.json"]))
    else acc !! name.
Proof.
  revert acc. induction targets as [|[t d] rest IH]; intros acc.
  - cbn. case_decide as H; [by apply elem_of_nil in H|done].
  - cbn [foldl]. rewrite IH, fmap_cons. cbn [fst].
    destruct (decide (name ∈ rest.*1)) as [Hin|Hnin].
    + rewrite decide_True; [done|by right].
    + rewrite lookup_insert. destruct (decide (t = name)) as [->|Hne].
      * rewrite decide_True; [done|left].
      * rewrite decide_False; [done|].
        intros [?|?]%elem_of_cons; congruence.
Qed.

(** Without parsing, the manifests are one path per target name,
    [base/target/manifest.json] joined as [os.path.join] does, and nothing
    for any other name. *)
Theorem join_manifests_lookup (base : string) (targets : list (string * string))
    (name : string) :
  join_manifests base targets !! name
  = if decide (name ∈ targets.*1)
    then Some (PathStr (PosixPath.join base [name; "manifest.json"]))
    else None.
Proof. unfold join_manifests. by rewrite join_manifests_foldl, lookup_empty. Qed.

Section ParseRuns.
Context {W : Type}.
Variable handler : Handler W.

Lemma parse_manifests_spec (base dir : string)
    (targets : list (string * string)) :
  ∀ (acc : gmap string ManifestPath) (s : Run W),
    let out := parse_manifests handler base dir targets acc s in
    ∃ l, log out.2 = log s ++ l
      ∧ l.*1 `prefix_of` parse_calls base dir targets
      ∧ (∀ m, out.1 = inr m →
           l.*1 = parse_calls base dir targets
           ∧ Forall (λ e : Call * bool, e.2 = true) l
           ∧ ∀ name, is_Some (m !! name)
                     ↔ is_Some (acc !! name) ∨ name ∈ targets.*1)
      ∧ (∀ e, out.1 = inl e →
           ∃ c l', e = CallRaised c ∧ l = l' ++ [(c, false)]
                   ∧ Forall (λ e : Call * bool, e.2 = true) l').
Proof.
  induction targets as [|[target d] rest IH]; intros acc s out; subst out.
  - exists []. cbn. rewrite app_nil_r. split; [done|]. split; [done|]. split.
    + intros m [= <-]. split; [done|]. split; [done|]. intros name.
      rewrite elem_of_nil. tauto.
    + intros e [=].
  - cbn [parse_manifests]. unfold mbind, M_bind, call.
    destruct (handler (files s) (Mkdir base)) as [[[]|] w1];
      cbn [fst snd files log].
    2:{ exists [(Mkdir base, false)]. split; [done|]. split.
        - rewrite fmap_cons. cbn. apply prefix_cons, prefix_nil.
        - split; [intros m [=]|]. intros e [= <-]. by exists (Mkdir base), []. }
    destruct (handler w1 (DbtParse dir target (base, target)))
      as [[target_path|] w2]; cbn [fst snd files log].
    2:{ exists [(Mkdir base, true); (DbtParse dir target (base, target), false)].
        split; [by rewrite <- app_assoc|]. split.
        - cbn. apply prefix_cons, prefix_cons, prefix_nil.
        - split; [intros m [=]|]. intros e [= <-].
          exists (DbtParse dir target (base, target)), [(Mkdir base, true)].
          split; [done|]. split; [done|]. by repeat constructor. }
    destruct (IH (<[target := PathJoin target_path "manifest.json"]> acc)
                (mkRun w2 ((log s ++ [(Mkdir base, true)])
                           ++ [(DbtParse dir target (base, target), true)])))
      as (l & Hlog & Hpre & Hok & Herr).
    exists ((Mkdir base, true) :: (DbtParse dir target (base, target), true) :: l).
    split; [|split; [|split]].
    + rewrite Hlog. cbn [log]. by rewrite <- !app_assoc.
    + rewrite !fmap_cons. cbn. by apply prefix_cons, prefix_cons.
    + intros m Hm. destruct (Hok m Hm) as (Hcalls & Hall & Hdom).
      split; [|split].
      * rewrite !fmap_cons. cbn. by rewrite Hcalls.
      * by repeat constructor.
      * intros name. rewrite Hdom, fmap_cons, elem_of_cons. cbn [fst].
        rewrite lookup_insert. case_decide as Hn.
        -- subst. split; [auto|]. intros _. left. eauto.
        -- split; [tauto|]. intros [?|[?|?]]; [tauto|congruence|tauto].
    + intros e He. destruct (Herr e He) as (c & l' & -> & -> & Hall).
      exists c, ((Mkdir base, true) :: (DbtParse dir target (base, target), true) :: l').
      split; [done|]. split; [done|]. by repeat constructor.
Qed.

(** The parsing loop makes, for each target in turn, the base directory and
    then a dbt parse of that target; it stops at the first call that raises;
    when it returns, every call has returned and the manifests have an
    entry for exactly the target names. *)
Theorem parse_manifests_log (base dir : string)
    (targets : list (string * string)) (w : W) :
  let out := parse_manifests handler base dir targets ∅ (mkRun w []) in
  (log out.2).*1 `prefix_of` parse_calls base dir targets
  ∧ (∀ m, out.1 = inr m →
       (log out.2).*1 = parse_calls base dir targets
       ∧ Forall (λ e : Call * bool, e.2 = true) (log out.2)
       ∧ ∀ name, is_Some (m !! name) ↔ name ∈ targets.*1)
  ∧ (∀ e, out.1 = inl e →
       ∃ c l', e = CallRaised c ∧ log out.2 = l' ++ [(c, false)]
               ∧ Forall (λ e : Call * bool, e.2 = true) l').
Proof.
  intros out. subst out.
  destruct (parse_manifests_spec base dir targets ∅ (mkRun w []))
    as (l & Hlog & Hpre & Hok & Herr).
  cbn [log app] in Hlog. rewrite Hlog. split; [done|]. split; [|done].
  intros m Hm. destruct (Hok m Hm) as (? & ? & Hdom).
  split; [done|]. split; [done|]. intros name. rewrite Hdom, lookup_empty.
  split; [intros [[? [=]]|?]; done|auto].
Qed.

End ParseRuns.

Section Runs.
Context {W : Type}.
Variable handler : Handler W.
Variable yaml_dump :
  gmap string (gmap string (gmap string (gmap string Value))) → string.
Variable environ : gmap string string.
Variable expanduser : string → string.

Local Abbreviation default_path := (default_profiles_path environ expanduser).

Lemma write_dbt_profile_cases (project_id profile_name : string)
    (targets : list (string * string)) (template : BQTargetConfigTemplate)
    (profile_path : string) (s : Run W) :
  let path := if PyStr.truthy profile_path then profile_path else default_path in
  let content :=
    yaml_dump (yaml_dict project_id profile_name targets template) in
  let out :=
    write_dbt_profile handler yaml_dump environ expanduser
      project_id profile_name targets template profile_path s in
  (out.1 = inl (CallRaised (Mkdir (PosixPath.dirname path)))
   ∧ log out.2 = log s ++ [(Mkdir (PosixPath.dirname path), false)])
  ∨ (out.1 = inl (CallRaised (WriteFile path content))
     ∧ log out.2 = log s ++ [(Mkdir (PosixPath.dirname path), true);
                             (WriteFile path content, false)])
  ∨ (out.1 = inr ()
     ∧ log out.2 = log s ++ [(Mkdir (PosixPath.dirname path), true);
                             (WriteFile path content, true)]).
Proof.
  intros path content out. subst out.
  unfold write_dbt_profile, generate_dbt_profile, mbind, M_bind, call.
  replace (if negb (PyStr.truthy profile_path) then default_path else profile_path)
    with path by (subst path; by destruct (PyStr.truthy profile_path)).
  fold content.
  destruct (handler (files s) (Mkdir (PosixPath.dirname path)))
    as [[[]|] w1]; cbn [fst snd files log]; [|by left].
  destruct (handler w1 (WriteFile path content)) as [[[]|] w2];
    cbn [fst snd files log]; rewrite <- app_assoc; cbn [app]; auto.
Qed.

(** [write_dbt_profile] creates the directory of the profile path, then
    writes the generated profile to that path; nothing is written when the
    directory cannot be made; an empty [profile_path] stands for the default
    path. *)
Theorem write_dbt_profile_log (project_id profile_name : string)
    (targets : list (string * string)) (template : BQTargetConfigTemplate)
    (profile_path : string) (s : Run W) :
  let path := if PyStr.truthy profile_path then profile_path else default_path in
  let content :=
    yaml_dump (yaml_dict project_id profile_name targets template) in
  let out :=
    write_dbt_profile handler yaml_dump environ expanduser
      project_id profile_name targets template profile_path s in
  (out.1 = inl (CallRaised (Mkdir (PosixPath.dirname path)))
   ∧ log out.2 = log s ++ [(Mkdir (PosixPath.dirname path), false)])
  ∨ (out.1 = inl (CallRaised (WriteFile path content))
     ∧ log out.2 = log s ++ [(Mkdir (PosixPath.dirname path), true);
                             (WriteFile path content, false)])
  ∨ (out.1 = inr ()
     ∧ log out.2 = log s ++ [(Mkdir (PosixPath.dirname path), true);
                             (WriteFile path content, true)]).
Proof. apply write_dbt_profile_cases. Qed.

(** Loading the manifests first asks whether the default profile is a file.
    When it is and [force_auth] is off, nothing is written; otherwise the
    profile is written to the default path as [write_dbt_profile] does.
    Without [parse_projects] no dbt command is run and the result, when
    there is one, is the joined paths. *)
Theorem load_dbt_manifests_profile (base dir project_id profile_name : string)
    (targets : list (string * string)) (template : BQTargetConfigTemplate)
    (force_auth : bool) (w : W) (is_file : bool) (w' : W) :
  let out :=
    load_dbt_manifests handler yaml_dump environ expanduser base dir
      project_id profile_name targets template false force_auth (mkRun w []) in
  let content :=
    yaml_dump (yaml_dict project_id profile_name targets template) in
  let made := Mkdir (PosixPath.dirname default_path) in
  let written := WriteFile default_path content in
  handler w (IsFile default_path) = (Some is_file, w') →
  (negb is_file || force_auth = false →
   out = (inr (join_manifests base targets),
          mkRun w' [(IsFile default_path, true)]))
  ∧ (negb is_file || force_auth = true →
     (out.1 = inl (CallRaised made)
      ∧ log out.2 = [(IsFile default_path, true); (made, false)])
     ∨ (out.1 = inl (CallRaised written)
        ∧ log out.2 = [(IsFile default_path, true); (made, true);
                       (written, false)])
     ∨ (out.1 = inr (join_manifests base targets)
        ∧ log out.2 = [(IsFile default_path, true); (made, true);
                       (written, true)])).
Proof.
  intros out content made written Hfile.
  assert (out
          = ((if negb is_file || force_auth
              then write_dbt_profile handler yaml_dump environ expanduser
                     project_id profile_name targets template ""
              else mret ())
             ≫= λ _, mret (join_manifests base targets))
              (mkRun w' [(IsFile default_path, true)])) as Hout.
  { unfold out, load_dbt_manifests. unfold mbind at 1, M_bind at 1, call.
    cbn [files log app]. by rewrite Hfile. }
  clearbody out. subst out.
  destruct (negb is_file || force_auth); (split; intros [=]).
  - unfold mbind, M_bind, mret, M_ret.
    pose proof (write_dbt_profile_cases project_id profile_name targets template
                  "" (mkRun w' [(IsFile default_path, true)])) as Hwrite.
    cbn [PyStr.truthy log app] in Hwrite.
    destruct (write_dbt_profile handler yaml_dump environ expanduser project_id
                profile_name targets template ""
                (mkRun w' [(IsFile default_path, true)])) as [[e|[]] s'].
    + cbn [fst snd] in *.
      destruct Hwrite as [[[= ->] ->]|[[[= ->] ->]|[Hbad _]]];
        [by left|by right; left|discriminate Hbad].
    + cbn [fst snd] in *.
      destruct Hwrite as [[Hbad _]|[[Hbad _]|[_ ->]]];
        [discriminate Hbad|discriminate Hbad|by right; right].
  - reflexivity.
Qed.

(** By default the directory [write_dbt_profile] makes is the profiles
    directory, that is [DBT_PROFILES_DIR] when the variable is set, even to
    the empty string, and the expanded [~/.dbt] otherwise, without its
    trailing slashes. *)
Theorem default_profile_directory :
  let dir := default (expanduser "~/.dbt") (environ !! "DBT_PROFILES_DIR") in
  PosixPath.dirname default_path
  = (if PyStr.truthy (PyStr.rstrip "/" dir) then PyStr.rstrip "/" dir else dir)
  ∧ (environ !! "DBT_PROFILES_DIR" = Some "" → default_path = "profiles.yml").
Proof.
  intros dir. split.
  - by apply PosixPathFacts.dirname_join.
  - intros Hset. unfold default_profiles_path, get_profiles_dir.
    by rewrite Hset.
Qed.

End Runs.

(** The manifest path of a target always ends in [manifest.json]; it lies
    under the base directory when the target does not start with a slash,
    and leaves the base directory out when it does. *)
Theorem join_manifests_paths (base : string) (targets : list (string * string))
    (name : string) :
  name ∈ targets.*1 →
  ∃ path,
    join_manifests base targets !! name = Some (PathStr path)
    ∧ (∃ before, path = before +:+ "manifest.json")
    ∧ (PosixPath.starts_with_sep name = false → ∃ rest, path = base +:+ rest)
    ∧ (PosixPath.starts_with_sep name = true →
       path = PosixPath.join name ["manifest.json"]).
Proof.
  intros Hin. exists (PosixPath.join base [name; "manifest.json"]).
  unfold join_manifests. rewrite join_manifests_foldl, decide_True by done.
  split; [done|]. apply PosixPathFacts.manifest_path_shape.
Qed.

Lemma join_manifests_paths_witness :
  join_manifests "target" [("prod", "oso"); ("/tmp/x", "oso")] !! "/tmp/x"
  = Some (PathStr "/tmp/x/manifest.json").
Proof.
  destruct (join_manifests_paths "target" [("prod", "oso"); ("/tmp/x", "oso")]
              "/tmp/x") as (path & -> & _ & _ & Habs).
  - right. left.
  - rewrite (Habs eq_refl). vm_compute. reflexivity.
Defined.

Lemma default_profile_directory_witness :
  default_profiles_path {[ "DBT_PROFILES_DIR" := "" ]} (λ _, "/home/oso/.dbt")
  = "profiles.yml".
Proof.
  refine (proj2 (default_profile_directory {[ "DBT_PROFILES_DIR" := "" ]}
                   (λ _, "/home/oso/.dbt")) _).
  vm_compute. reflexivity.
Defined.

Lemma parse_manifests_log_witness :
  let out :=
    parse_manifests plain_files "target" "dbt" [("prod", "oso"); ("dev", "play")]
      ∅ (mkRun [] []) in
  (log out.2).*1
  = [ Mkdir "target"; DbtParse "dbt" "prod" ("target", "prod");
      Mkdir "target"; DbtParse "dbt" "dev" ("target", "dev") ].
Proof.
  intros out.
  refine (eq_trans (proj1 (proj1 (proj2 (parse_manifests_log plain_files
    "target" "dbt" [("prod", "oso"); ("dev", "play")] [])) _ _)) _).
  - reflexivity.
  - reflexivity.
Defined.

Lemma load_dbt_manifests_profile_witness :
  let yaml := λ _, "profile" in
  let home := λ _ : string, "/home/oso/.dbt" in
  let load := λ force w,
    load_dbt_manifests plain_files yaml ∅ home "target" "dbt" "proj" "oso"
      [("prod", "oso")] default_template false force (mkRun w []) in
  (load false ["/home/oso/.dbt/profiles.yml"]).2
  = mkRun ["/home/oso/.dbt/profiles.yml"]
      [(IsFile "/home/oso/.dbt/profiles.yml", true)]
  ∧ (load true ["/home/oso/.dbt/profiles.yml"]).1
    = inr (join_manifests "target" [("prod", "oso")]).
Proof.
  intros yaml home load.
  assert (plain_files ["/home/oso/.dbt/profiles.yml"]
            (IsFile (default_profiles_path ∅ home))
          = (Some true, ["/home/oso/.dbt/profiles.yml"])) as Hfile
    by reflexivity.
  split.
  - exact (f_equal snd (proj1 (load_dbt_manifests_profile plain_files yaml ∅ home
      "target" "dbt" "proj" "oso" [("prod", "oso")] default_template false
      _ _ _ Hfile) eq_refl)).
  - destruct (proj2 (load_dbt_manifests_profile plain_files yaml ∅ home
      "target" "dbt" "proj" "oso" [("prod", "oso")] default_template true
      _ _ _ Hfile) eq_refl) as [[H _]|[[H _]|[H _]]].
    + discriminate H.
    + discriminate H.
    + exact H.
Defined.

End DbtRuns.
